(** * FirmwareUpdateLib (CoffeelakePkg): region layout, update plan,
      Stage 1A locator, boot-partition switch, boot-media access and the
      update hooks

    A shallow embedding of
    [Silicon/CoffeelakePkg/Library/FirmwareUpdateLib/FirmwareUpdateLib.c].

    Machine integers are integers of [Z] with the wrap-around of every C
    operation written out.  Pointers are their numeric value; a pointer
    that may be [NULL] is an [option].  Out-parameters are passed in and
    returned (state passing).  Memory-mapped and port I/O run in small
    state monads over an abstract device and record every access in a
    trace.  [DEBUG] prints have no effect on any value and are left out.

    Constants, macros and types of headers outside this file are section
    variables; the flash-map table and its lookup are modelled from the
    specification and marked so. *)

From Stdlib Require Import ZArith Lia Bool.
From stdpp Require Import base option list gmap.

Local Open Scope Z_scope.

(** ** Fixed-width integers *)

Definition wrap32 (x : Z) : Z := x mod 2 ^ 32.
Definition wrap64 (x : Z) : Z := x mod 2 ^ 64.

Definition is_u32 (x : Z) : Prop := 0 <= x < 2 ^ 32.

(** [UINT32] arithmetic, as the C operators compute it. *)
Definition add32 (a b : Z) : Z := wrap32 (a + b).
Definition sub32 (a b : Z) : Z := wrap32 (a - b).
Definition mul32 (a b : Z) : Z := wrap32 (a * b).

(** [UINT64] subtraction ([0x100000000ULL - x] and [RomSize - ...]). *)
Definition sub64 (a b : Z) : Z := wrap64 (a - b).

(** The build target fixes the width of [UINTN] and of pointers. *)
Inductive ARCH : Type := IA32 | X64.

Definition UINTN_bits (arch : ARCH) : Z :=
  match arch with IA32 => 32 | X64 => 64 end.

Definition wrapN (arch : ARCH) (x : Z) : Z := x mod 2 ^ UINTN_bits arch.

Definition addN (arch : ARCH) (a b : Z) : Z := wrapN arch (a + b).

(** [~x] on a 32-bit operand. *)
Definition not32 (x : Z) : Z := wrap32 (Z.lnot x).

Definition BIT0 : Z := 0x00000001.

(** ** Status codes *)

Inductive EFI_STATUS : Type :=
| EFI_SUCCESS
| EFI_INVALID_PARAMETER
| EFI_NOT_FOUND.

#[global] Instance EFI_STATUS_eq_dec : EqDecision EFI_STATUS.
Proof. solve_decision. Defined.

Definition EFI_ERROR (Status : EFI_STATUS) : bool :=
  match Status with EFI_SUCCESS => false | _ => true end.

(** ** Data model *)

(** Modelled from the spec: the flash-map entry of a logical component,
    the (base, size) of its primary and of its backup copy.  The base is
    an absolute address below [0x100000000]; a copy may be absent. *)
Record FLASH_MAP_COMPONENT : Type := {
  Primary : option (Z * Z);
  Backup  : option (Z * Z)
}.

(** Modelled from the spec: the declaration of [FLASH_MAP] is in a header
    that is not among the sources.  The spec gives it as [RomSize] plus
    a signature-keyed table holding, per logical component, the (base,
    size) of the primary and of the backup copy; a copy may be absent. *)
Record FLASH_MAP : Type := {
  RomSize    : Z;
  Components : gmap Z FLASH_MAP_COMPONENT
}.

(** Modelled from the spec: the lookup of a component's (base, size) at
    the requested copy; there is none when the flash map is [NULL] or does
    not list that copy. *)
Definition flash_map_entry (FlashMapPtr : option FLASH_MAP) (Signature : Z)
    (IsBackupPartition : bool) : option (Z * Z) :=
  FlashMap ← FlashMapPtr;
  Components FlashMap !! Signature
    ≫= (if IsBackupPartition then Backup else Primary).

(** The two fields of [FIRMWARE_UPDATE_POLICY.Fields] the library reads. *)
Record FIRMWARE_UPDATE_POLICY : Type := {
  UpdatePartitionB : Z;
  StateMachine     : Z
}.

Record FIRMWARE_UPDATE_REGION : Type := {
  ToUpdateAddress : Z;
  UpdateSize      : Z;
  SourceAddress   : Z
}.

Record FIRMWARE_UPDATE_PARTITION : Type := {
  RegionCount : Z;
  FwRegion    : list FIRMWARE_UPDATE_REGION
}.

(** Modelled from the spec: [MAX_UPDATE_REGIONS] is defined in a header
    that is not among the sources; the spec's update plan holds at most
    three regions. *)
Definition MAX_UPDATE_REGIONS : nat := 3.

Definition zero_region : FIRMWARE_UPDATE_REGION :=
  {| ToUpdateAddress := 0; UpdateSize := 0; SourceAddress := 0 |}.

(** [AllocateZeroPool]: a zero-filled partition with room for
    [MAX_UPDATE_REGIONS] regions.  The allocation is taken to succeed,
    which is what the [ASSERT] after it states. *)
Definition AllocateZeroPool : FIRMWARE_UPDATE_PARTITION :=
  {| RegionCount := 0; FwRegion := replicate MAX_UPDATE_REGIONS zero_region |}.

Definition set_RegionCount (n : Z) (p : FIRMWARE_UPDATE_PARTITION)
  : FIRMWARE_UPDATE_PARTITION :=
  {| RegionCount := n; FwRegion := FwRegion p |}.

(** [UpdatePartition->FwRegion[Idx] = r]. *)
Definition set_FwRegion (Idx : nat) (r : FIRMWARE_UPDATE_REGION)
    (p : FIRMWARE_UPDATE_PARTITION) : FIRMWARE_UPDATE_PARTITION :=
  {| RegionCount := RegionCount p; FwRegion := <[Idx := r]> (FwRegion p) |}.

(** [UpdatePartition->RegionCount += 1]. *)
Definition inc_RegionCount (p : FIRMWARE_UPDATE_PARTITION)
  : FIRMWARE_UPDATE_PARTITION :=
  set_RegionCount (add32 (RegionCount p) 1) p.

(** The regions a consumer of the plan visits: the first [RegionCount]
    entries of [FwRegion] (the loop at the end of [GetFirmwareUpdateInfo]
    walks exactly these). *)
Definition plan_regions (p : FIRMWARE_UPDATE_PARTITION)
  : list FIRMWARE_UPDATE_REGION :=
  take (Z.to_nat (RegionCount p)) (FwRegion p).

(** Byte interval of a region on the boot medium. *)
Definition region_end (r : FIRMWARE_UPDATE_REGION) : Z :=
  ToUpdateAddress r + UpdateSize r.

Definition regions_disjoint (r1 r2 : FIRMWARE_UPDATE_REGION) : Prop :=
  region_end r1 <= ToUpdateAddress r2 \/ region_end r2 <= ToUpdateAddress r1.

Definition region_in_rom (romSize : Z) (r : FIRMWARE_UPDATE_REGION) : Prop :=
  0 <= ToUpdateAddress r /\ region_end r <= romSize.

(** The precondition the spec puts on the layout. *)
Definition layout_fits (romSize topSwapSize redundantSize nonRedundantSize : Z)
  : Prop :=
  0 < topSwapSize /\ 0 < redundantSize /\ 0 < nonRedundantSize /\
  2 * (topSwapSize + redundantSize) + nonRedundantSize <= romSize.

(** ** Memory-mapped I/O *)

(** One access to the device, with the value that crossed the bus. *)
Inductive MMIO_EVENT : Type :=
| MmioRead32_event  (Address Value : Z)
| MmioWrite32_event (Address Value : Z).

(** What the library needs of the hardware: a 32-bit read, which may
    change the device, and a 32-bit write.  Nothing is assumed about how
    a write shows up in later reads. *)
Class MMIO_DEVICE (HW : Type) : Type := {
  device_read32  : Z -> HW -> Z * HW;
  device_write32 : Z -> Z -> HW -> HW
}.

Record MACHINE (HW : Type) : Type := {
  hw    : HW;
  trace : list MMIO_EVENT
}.
Arguments hw {HW} _.
Arguments trace {HW} _.

Definition IO (HW A : Type) : Type := MACHINE HW -> A * MACHINE HW.

Definition io_ret {HW A} (a : A) : IO HW A := fun m => (a, m).

Definition io_bind {HW A B} (c : IO HW A) (k : A -> IO HW B) : IO HW B :=
  fun m => let '(a, m') := c m in k a m'.

Declare Scope io_scope.
Delimit Scope io_scope with io.
Notation "x <- c ;; k" := (io_bind c (fun x => k))
  (at level 100, c at next level, right associativity) : io_scope.
Notation "c ;;; k" := (io_bind c (fun _ => k))
  (at level 100, right associativity) : io_scope.

Section Mmio.
Context {HW : Type} `{MMIO_DEVICE HW}.

(** [MmioRead32] returns a [UINT32]. *)
Definition MmioRead32 (Address : Z) : IO HW Z :=
  fun m =>
    let '(v, h) := device_read32 Address (hw m) in
    let Value := wrap32 v in
    (Value, {| hw := h; trace := trace m ++ [MmioRead32_event Address Value] |}).

Definition MmioWrite32 (Address Value : Z) : IO HW Z :=
  fun m =>
    (Value, {| hw := device_write32 Address Value (hw m);
               trace := trace m ++ [MmioWrite32_event Address Value] |}).
End Mmio.

(** Two devices to run the code on.  A latched register file keeps what
    was written; a locked register ignores writes. *)
Definition latched_registers : MMIO_DEVICE (gmap Z Z) :=
  {| device_read32  := fun a h => (default 0 (h !! a), h);
     device_write32 := fun a v h => <[a := v]> h |}.

Definition locked_register : MMIO_DEVICE Z :=
  {| device_read32  := fun _ h => (h, h);
     device_write32 := fun _ _ h => h |}.

(** ** Boot partitions *)

(** The enumerators [SetBootPartition] names, and any other value the C
    enumeration type can carry. *)
Inductive BOOT_PARTITION : Type :=
| PrimaryPartition
| BackupPartition
| OtherPartition (raw : Z).

#[global] Instance BOOT_PARTITION_eq_dec : EqDecision BOOT_PARTITION.
Proof. solve_decision. Defined.

Section PartitionSwitch.
Context {HW : Type} `{MMIO_DEVICE HW}.

(** The macro and the two constants that locate the top-swap register
    (Backed Up Control, RTC private configuration space). *)
Variable PCH_PCR_ADDRESS : Z -> Z -> Z.
Variables PID_RTC_HOST R_RTC_PCR_BUC : Z.

Local Open Scope io_scope.

Definition SetBootPartition (Partition : BOOT_PARTITION) : IO HW EFI_STATUS :=
  let TopSwapReg := wrap32 (PCH_PCR_ADDRESS PID_RTC_HOST R_RTC_PCR_BUC) in
  Data32 <- MmioRead32 TopSwapReg ;;
  let Data32 :=
    if decide (Partition = BackupPartition) then
      (* Switch to back up partition - Set Top Swap *)
      Z.lor Data32 BIT0
    else if decide (Partition = PrimaryPartition) then
      (* Switch to primary partition - Clear Top Swap *)
      Z.land Data32 (not32 BIT0)
    else Data32 in
  MmioWrite32 TopSwapReg Data32 ;;;
  Data32 <- MmioRead32 TopSwapReg ;;
  io_ret EFI_SUCCESS.

End PartitionSwitch.

(** ** The library *)

Section FirmwareUpdateLib.

(** Build target and the constants of headers outside the sources. *)
Variable arch : ARCH.
(** [sizeof (EFI_FW_MGMT_CAP_IMAGE_HEADER)] *)
Variable sizeof_EFI_FW_MGMT_CAP_IMAGE_HEADER : Z.
Variables FW_UPDATE_SM_PART_A FW_UPDATE_SM_PART_B : Z.
Variable FLASH_MAP_SIG_STAGE1A : Z.

(** [GetFlashMapPtr ()]: the flash map, or [NULL]. *)
Variable GetFlashMapPtr : option FLASH_MAP.
(** [GetRegionInfo (&TopSwap, &Redundant, &NonRedundant)]: the three
    region sizes it stores. *)
Variable GetRegionInfo : Z * Z * Z.

(** Modelled from the spec: [GetComponentInfoByPartition] is defined in a
    library that is not among the sources.  The spec's locator looks up
    the (base, size) of a component at the requested copy and reports
    [NotFound] when the flash map has no such entry.  [Base] and [Size]
    are the contents of the two [UINT32] output slots, returned
    unchanged on failure. *)
Definition GetComponentInfoByPartition (Signature : Z)
    (IsBackupPartition : bool) (Base Size : Z) : EFI_STATUS * Z * Z :=
  match flash_map_entry GetFlashMapPtr Signature IsBackupPartition with
  | Some (b, s) => (EFI_SUCCESS, wrap32 b, wrap32 s)
  | None => (EFI_NOT_FOUND, Base, Size)
  end.

(** [Base] and [Size] are the output pointers: [None] is [NULL],
    [Some v] a slot holding [v].  The result carries the slots back. *)
Definition PlatformGetStage1AOffset (ImageHdr : Z)
    (IsBackupPartition : bool) (Base Size : option Z)
  : EFI_STATUS * option Z * option Z :=
  match Base, Size with
  | Some b, Some s =>
    match GetFlashMapPtr with
    | None => (EFI_NOT_FOUND, Base, Size)
    | Some FlashMap =>
      (* Get stage 1A base and size *)
      let '(Status, b, s) :=
        GetComponentInfoByPartition FLASH_MAP_SIG_STAGE1A
                                    IsBackupPartition b s in
      let '(Status, b, s) :=
        if IsBackupPartition && bool_decide (Status = EFI_NOT_FOUND)
        then GetComponentInfoByPartition FLASH_MAP_SIG_STAGE1A false b s
        else (Status, b, s) in
      if EFI_ERROR Status then (Status, Some b, Some s)
      else
        (* Convert base address to offset in the BIOS region *)
        let b := wrap32 (sub64 (RomSize FlashMap) (sub64 0x100000000 b)) in
        (* Calculate base address of the component in the capsule image *)
        let b :=
          wrap32 (addN arch (addN arch (wrapN arch ImageHdr)
                                       sizeof_EFI_FW_MGMT_CAP_IMAGE_HEADER)
                            b) in
        (EFI_SUCCESS, Some b, Some s)
    end
  | _, _ => (EFI_INVALID_PARAMETER, Base, Size)
  end.

(** The second component is what the call stores in [*PartitionInfo];
    [None] when it returns without writing the slot. *)
Definition GetFirmwareUpdateInfo (ImageHdr : Z)
    (FwPolicy : FIRMWARE_UPDATE_POLICY)
  : EFI_STATUS * option FIRMWARE_UPDATE_PARTITION :=
  let '(TopSwapRegionSize, RedundantRegionSize, NonRedundantRegionSize) :=
    GetRegionInfo in
  let UpdatePartition := AllocateZeroPool in
  let UpdatePartition := set_RegionCount 0 UpdatePartition in
  match GetFlashMapPtr with
  | None => (EFI_NOT_FOUND, None)
  | Some FlashMap =>
    let NonRedundantRegionOffset :=
      sub32 (sub32 (RomSize FlashMap)
                   (mul32 (add32 TopSwapRegionSize RedundantRegionSize) 2))
            NonRedundantRegionSize in
    let TopSwapRegionOffset := sub32 (RomSize FlashMap) TopSwapRegionSize in
    let RedundantRegionOffset :=
      sub32 (sub32 TopSwapRegionOffset TopSwapRegionSize)
            RedundantRegionSize in
    let '(TopSwapRegionOffset, RedundantRegionOffset) :=
      if UpdatePartitionB FwPolicy =? 1
      then (sub32 TopSwapRegionOffset TopSwapRegionSize,
            sub32 RedundantRegionOffset RedundantRegionSize)
      else (TopSwapRegionOffset, RedundantRegionOffset) in
    (* Top Swap region *)
    let UpdatePartition :=
      set_FwRegion 0
        {| ToUpdateAddress := TopSwapRegionOffset;
           UpdateSize      := TopSwapRegionSize;
           SourceAddress   :=
             addN arch (addN arch (wrapN arch ImageHdr)
                                  sizeof_EFI_FW_MGMT_CAP_IMAGE_HEADER)
                       (wrapN arch TopSwapRegionOffset) |}
        UpdatePartition in
    let UpdatePartition := inc_RegionCount UpdatePartition in
    (* Redundant region *)
    let UpdatePartition :=
      set_FwRegion 1
        {| ToUpdateAddress := RedundantRegionOffset;
           UpdateSize      := RedundantRegionSize;
           SourceAddress   :=
             addN arch (addN arch (wrapN arch ImageHdr)
                                  sizeof_EFI_FW_MGMT_CAP_IMAGE_HEADER)
                       (wrapN arch RedundantRegionOffset) |}
        UpdatePartition in
    let UpdatePartition := inc_RegionCount UpdatePartition in
    let UpdatePartition :=
      if (StateMachine FwPolicy =? FW_UPDATE_SM_PART_A)
         || (StateMachine FwPolicy =? FW_UPDATE_SM_PART_B)
      then
        (* Non-redundant region *)
        let UpdatePartition :=
          set_FwRegion 2
            {| ToUpdateAddress := NonRedundantRegionOffset;
               UpdateSize      := NonRedundantRegionSize;
               SourceAddress   :=
                 addN arch (addN arch (wrap32 ImageHdr)
                                      sizeof_EFI_FW_MGMT_CAP_IMAGE_HEADER)
                           NonRedundantRegionOffset |}
            UpdatePartition in
        inc_RegionCount UpdatePartition
      else UpdatePartition in
    (EFI_SUCCESS, Some UpdatePartition)
  end.

End FirmwareUpdateLib.

(** ** Reading a result *)

(** Destination offsets and sizes of the regions of a returned plan, in
    plan order. *)
Definition plan_offsets (res : EFI_STATUS * option FIRMWARE_UPDATE_PARTITION)
  : option (list Z) :=
  (fun p => ToUpdateAddress <$> plan_regions p) <$> res.2.

Definition plan_sizes (res : EFI_STATUS * option FIRMWARE_UPDATE_PARTITION)
  : option (list Z) :=
  (fun p => UpdateSize <$> plan_regions p) <$> res.2.

Definition plan_sources (res : EFI_STATUS * option FIRMWARE_UPDATE_PARTITION)
  : option (list Z) :=
  (fun p => SourceAddress <$> plan_regions p) <$> res.2.

(** The layout of the spec over unbounded integers: the offsets of the
    top-swap, redundant and non-redundant regions for the copy chosen by
    [copyB]. *)
Definition ComputeLayout_spec (romSize topSwapSize redundantSize
    nonRedundantSize : Z) (copyB : bool) : Z * Z * Z :=
  let nonRedundantOffset :=
    romSize - 2 * (topSwapSize + redundantSize) - nonRedundantSize in
  let topSwapOffset := romSize - topSwapSize in
  let redundantOffset := topSwapOffset - topSwapSize - redundantSize in
  if copyB
  then (topSwapOffset - topSwapSize, redundantOffset - redundantSize,
        nonRedundantOffset)
  else (topSwapOffset, redundantOffset, nonRedundantOffset).

(** The state-machine test that admits the non-redundant region. *)
Definition in_update_phase (FW_UPDATE_SM_PART_A FW_UPDATE_SM_PART_B : Z)
    (FwPolicy : FIRMWARE_UPDATE_POLICY) : bool :=
  (StateMachine FwPolicy =? FW_UPDATE_SM_PART_A)
  || (StateMachine FwPolicy =? FW_UPDATE_SM_PART_B).

(** ** Inputs to run the code on *)

(** The scenario of the spec: a 16 MiB ROM with a 64 KiB top-swap
    region, a 1 MiB redundant region and a 2 MiB non-redundant region. *)
Definition scenario_flash_map : FLASH_MAP :=
  {| RomSize := 0x1000000; Components := ∅ |}.

Definition scenario_sizes : Z * Z * Z := (0x10000, 0x100000, 0x200000).

(** A 1 MiB ROM that the same three regions do not fit in. *)
Definition small_flash_map : FLASH_MAP :=
  {| RomSize := 0x100000; Components := ∅ |}.

(** Sample values for the constants of the absent headers. *)
Definition sample_hdr_size : Z := 0x20.
Definition sample_SM_PART_A : Z := 0x7E.
Definition sample_SM_PART_B : Z := 0x7D.
Definition sample_SM_other : Z := 0x7F.

Definition policy (copyB : bool) (sm : Z) : FIRMWARE_UPDATE_POLICY :=
  {| UpdatePartitionB := if copyB then 1 else 0; StateMachine := sm |}.

(** A flash map that lists Stage 1A (64 KiB below the top of the address
    space, 32 KiB long) as a primary copy only, and one that lists both
    copies. *)
Definition sample_SIG_STAGE1A : Z := 0x41314753.

Definition single_copy_flash_map : FLASH_MAP :=
  {| RomSize := 0x1000000;
     Components :=
       {[ sample_SIG_STAGE1A :=
            {| Primary := Some (0xFFFF0000, 0x8000); Backup := None |} ]} |}.

Definition two_copy_flash_map : FLASH_MAP :=
  {| RomSize := 0x1000000;
     Components :=
       {[ sample_SIG_STAGE1A :=
            {| Primary := Some (0xFFFF0000, 0x8000);
               Backup := Some (0xFFFE0000, 0x8000) |} ]} |}.

(** A chipset address map for the private configuration space, and a
    machine whose top-swap register holds 0x20. *)
Definition sample_PCH_PCR_ADDRESS (Pid Offset : Z) : Z :=
  Z.lor 0xFD000000 (Z.lor (Z.shiftl Pid 16) Offset).
Definition sample_PID_RTC_HOST : Z := 0xC3.
Definition sample_R_RTC_PCR_BUC : Z := 0x3414.

Definition latched_machine : MACHINE (gmap Z Z) :=
  {| hw := {[ 0xFDC33414 := 0x20 ]}; trace := [] |}.

Definition locked_machine : MACHINE Z :=
  {| hw := 0x20; trace := [] |}.

(** The value [SetBootPartition] writes back for the value it read. *)
Definition written_value (Partition : BOOT_PARTITION) (Data32 : Z) : Z :=
  match Partition with
  | BackupPartition => Z.lor Data32 BIT0
  | PrimaryPartition => Z.land Data32 (not32 BIT0)
  | OtherPartition _ => Data32
  end.

(** ** Port I/O and the update hooks *)

Definition wrap8 (x : Z) : Z := x mod 2 ^ 8.

Inductive PORT_EVENT : Type :=
| IoRead8_event  (Port Value : Z)
| IoWrite8_event (Port Value : Z).

(** An 8-bit port space: a read, which may change the device, and a
    write. *)
Class PORT_DEVICE (HW : Type) : Type := {
  port_read8  : Z -> HW -> Z * HW;
  port_write8 : Z -> Z -> HW -> HW
}.

Record PORT_MACHINE (HW : Type) : Type := {
  ports      : HW;
  port_trace : list PORT_EVENT
}.
Arguments ports {HW} _.
Arguments port_trace {HW} _.

Definition PIO (HW A : Type) : Type := PORT_MACHINE HW -> A * PORT_MACHINE HW.

Definition pio_ret {HW A} (a : A) : PIO HW A := fun m => (a, m).

Definition pio_bind {HW A B} (c : PIO HW A) (k : A -> PIO HW B) : PIO HW B :=
  fun m => let '(a, m') := c m in k a m'.

Declare Scope pio_scope.
Delimit Scope pio_scope with pio.
Notation "x <- c ;; k" := (pio_bind c (fun x => k))
  (at level 100, c at next level, right associativity) : pio_scope.
Notation "c ;;; k" := (pio_bind c (fun _ => k))
  (at level 100, right associativity) : pio_scope.

Definition FWU_BOOT_MODE_OFFSET : Z := 0x40.
Definition FWU_BOOT_MODE_VALUE : Z := 0x5A.

Section Hooks.
Context {HW : Type} `{PORT_DEVICE HW}.

(** [IoRead8] returns a [UINT8]. *)
Definition IoRead8 (Port : Z) : PIO HW Z :=
  fun m =>
    let '(v, h) := port_read8 Port (ports m) in
    let Value := wrap8 v in
    (Value, {| ports := h;
               port_trace := port_trace m ++ [IoRead8_event Port Value] |}).

Definition IoWrite8 (Port Value : Z) : PIO HW Z :=
  fun m =>
    (Value, {| ports := port_write8 Port Value (ports m);
               port_trace := port_trace m ++ [IoWrite8_event Port Value] |}).

(** The index and data ports of the CMOS RAM. *)
Variables CMOS_ADDREG CMOS_DATAREG : Z.

Local Open Scope pio_scope.

Definition PrepareRegionsUpdate (UpdatePartition : FIRMWARE_UPDATE_PARTITION)
  : EFI_STATUS :=
  EFI_SUCCESS.

Definition EndFirmwareUpdate : PIO HW EFI_STATUS :=
  (* This is platform specific method. Here just use COMS address 0x40. *)
  IoWrite8 CMOS_ADDREG FWU_BOOT_MODE_OFFSET ;;;
  FirmwareUpdateStatus <- IoRead8 CMOS_DATAREG ;;
  (if negb (FirmwareUpdateStatus =? 0) then
     (* clear it *)
     IoWrite8 CMOS_ADDREG FWU_BOOT_MODE_OFFSET ;;;
     IoWrite8 CMOS_DATAREG 0x0 ;;;
     FirmwareUpdateStatus <- IoRead8 CMOS_DATAREG ;;
     pio_ret FirmwareUpdateStatus
   else pio_ret FirmwareUpdateStatus) ;;;
  pio_ret EFI_SUCCESS.

End Hooks.

(** A CMOS RAM to run the hooks on: the index port selects a byte, the
    data port reads and writes the selected byte; any other port reads
    0xFF and ignores writes. *)
Record CMOS : Type := {
  cmos_index : Z;
  cmos_ram   : gmap Z Z
}.

Definition cmos_device (addreg datareg : Z) : PORT_DEVICE CMOS :=
  {| port_read8 := fun p c =>
       if p =? datareg then (default 0 (cmos_ram c !! cmos_index c), c)
       else (0xFF, c);
     port_write8 := fun p v c =>
       if p =? addreg then {| cmos_index := v; cmos_ram := cmos_ram c |}
       else if p =? datareg
       then {| cmos_index := cmos_index c;
               cmos_ram := <[cmos_index c := v]> (cmos_ram c) |}
       else c |}.

(** The byte a read of the data port returns once [Offset] is selected. *)
Definition cmos_byte (c : CMOS) (Offset : Z) : Z :=
  wrap8 (default 0 (cmos_ram c !! Offset)).

(** ** Boot media *)

(** The SPI flash service: the four entry points the library calls, over
    a flash state [F], with a status type [R] of the service's own.  A
    read also yields the bytes it stores into the buffer. *)
Record SPI_FLASH_SERVICE (F R : Type) : Type := {
  SpiInit  : F -> R * F;
  SpiRead  : Z -> Z -> Z -> F -> R * list Z * F;
  SpiWrite : Z -> Z -> Z -> list Z -> F -> R * F;
  SpiErase : Z -> Z -> Z -> F -> R * F
}.
Arguments SpiInit {F R} _ _.
Arguments SpiRead {F R} _ _ _ _ _.
Arguments SpiWrite {F R} _ _ _ _ _ _.
Arguments SpiErase {F R} _ _ _ _ _.

(** The global [mFwuSpiService] together with the flash it drives. *)
Record BOOT_MEDIA (F R : Type) : Type := {
  mFwuSpiService : option (SPI_FLASH_SERVICE F R);
  flash          : F
}.
Arguments mFwuSpiService {F R} _.
Arguments flash {F R} _.

Section BootMedia.
Context {F R : Type}.

(** [GetServiceBySignature]: the registered service, or [NULL]. *)
Variable GetServiceBySignature : Z -> option (SPI_FLASH_SERVICE F R).
Variable SPI_FLASH_SERVICE_SIGNATURE : Z.
Variable FlashRegionBios : Z.

Definition InitializeBootMedia (st : BOOT_MEDIA F R) : BOOT_MEDIA F R :=
  let st :=
    {| mFwuSpiService := GetServiceBySignature SPI_FLASH_SERVICE_SIGNATURE;
       flash := flash st |} in
  match mFwuSpiService st with
  | None => st
  | Some Service =>
    {| mFwuSpiService := mFwuSpiService st;
       flash := (SpiInit Service (flash st)).2 |}
  end.

(** The three accessors dereference [mFwuSpiService] without a test; the
    result is [None] when the pointer is [NULL], where C gives the call
    no meaning. *)
Definition BootMediaRead (Address ByteCount : Z) (st : BOOT_MEDIA F R)
  : option (R * list Z * BOOT_MEDIA F R) :=
  Service ← mFwuSpiService st;
  let '(Status, Buffer, f) :=
    SpiRead Service FlashRegionBios (wrap32 Address) ByteCount (flash st) in
  Some (Status, Buffer, {| mFwuSpiService := mFwuSpiService st; flash := f |}).



End BootMedia.

(** A service to run the accessors on: it keeps a log of the calls it
    receives, as (entry point, region, address, byte count), reads back
    [ByteCount] bytes of 0xFF and reports status 0. *)
Definition recording_flash : SPI_FLASH_SERVICE (list (Z * Z * Z * Z)) Z :=
  {| SpiInit  := fun log => (0, log ++ [(0, 0, 0, 0)]);
     SpiRead  := fun Region Address ByteCount log =>
       (0, replicate (Z.to_nat ByteCount) 0xFF,
        log ++ [(1, Region, Address, ByteCount)]);
     SpiWrite := fun Region Address ByteCount Buffer log =>
       (0, log ++ [(2, Region, Address, ByteCount)]);
     SpiErase := fun Region Address ByteCount log =>
       (0, log ++ [(3, Region, Address, ByteCount)]) |}.

(** ** Well-behaved registers *)

(** A register that latches: reading it does not change the device, and
    a read after a write returns the value written. *)
Definition latches_at {HW : Type} `{MMIO_DEVICE HW} (Address : Z) : Prop :=
  (forall h, (device_read32 Address h).2 = h)
  /\ (forall v h,
        (device_read32 Address (device_write32 Address v h)).1 = v).

(** * Properties *)

(** ** Wrap-around arithmetic *)

Lemma wrap32_small x : is_u32 x -> wrap32 x = x.
Proof. intros Hx. apply Z.mod_small. exact Hx. Qed.

Lemma addN_wrap_l arch a b : addN arch (wrapN arch a) b = wrapN arch (a + b).
Proof. unfold addN, wrapN. apply Zplus_mod_idemp_l. Qed.

Lemma addN_wrap_r arch a b : addN arch a (wrapN arch b) = wrapN arch (a + b).
Proof. unfold addN, wrapN. apply Zplus_mod_idemp_r. Qed.

(** The sum that locates a region's source, with the wrap-around of the
    casts and of the two additions folded into one. *)
Lemma source_sum arch a b c :
  addN arch (addN arch (wrapN arch a) b) (wrapN arch c)
    = wrapN arch (a + b + c).
Proof.
  rewrite addN_wrap_r, addN_wrap_l. unfold wrapN.
  apply Zplus_mod_idemp_l.
Qed.

(** The three offsets the code computes are the spec's, reduced modulo
    2^32. *)
Lemma offsets32_spec rom ts r nr :
  sub32 (sub32 rom (mul32 (add32 ts r) 2)) nr
    = wrap32 (rom - 2 * (ts + r) - nr)
  /\ sub32 (sub32 (sub32 rom ts) ts) r = wrap32 (rom - ts - ts - r)
  /\ sub32 (sub32 (sub32 (sub32 rom ts) ts) r) r
       = wrap32 (rom - ts - ts - r - r).
Proof.
  unfold sub32, mul32, add32, wrap32.
  repeat split; Z.to_euclidean_division_equations; lia.
Qed.

(** ** The plan, unfolded *)

Section PlanShape.
Variable arch : ARCH.
Variable sizeof_EFI_FW_MGMT_CAP_IMAGE_HEADER : Z.
Variables FW_UPDATE_SM_PART_A FW_UPDATE_SM_PART_B : Z.

Local Abbreviation GetInfo :=
  (GetFirmwareUpdateInfo arch sizeof_EFI_FW_MGMT_CAP_IMAGE_HEADER
     FW_UPDATE_SM_PART_A FW_UPDATE_SM_PART_B).
Local Abbreviation hdr := sizeof_EFI_FW_MGMT_CAP_IMAGE_HEADER.

(** Without a flash map there is no plan. *)
Lemma GetFirmwareUpdateInfo_no_flash_map sizes ImageHdr FwPolicy :
  GetInfo None sizes ImageHdr FwPolicy = (EFI_NOT_FOUND, None).
Proof. unfold GetFirmwareUpdateInfo. by destruct sizes as [[? ?] ?]. Qed.

(** With a flash map the call succeeds, whatever the sizes are; this is
    the plan it returns. *)
Lemma GetFirmwareUpdateInfo_plan fm ts r nr ImageHdr FwPolicy :
  let copyB := UpdatePartitionB FwPolicy =? 1 in
  let phase := in_update_phase FW_UPDATE_SM_PART_A FW_UPDATE_SM_PART_B FwPolicy in
  let tsOff := if copyB then sub32 (sub32 (RomSize fm) ts) ts
               else sub32 (RomSize fm) ts in
  let rOff := if copyB then sub32 (sub32 (sub32 (sub32 (RomSize fm) ts) ts) r) r
              else sub32 (sub32 (sub32 (RomSize fm) ts) ts) r in
  let nrOff := sub32 (sub32 (RomSize fm) (mul32 (add32 ts r) 2)) nr in
  GetInfo (Some fm) (ts, r, nr) ImageHdr FwPolicy =
  (EFI_SUCCESS,
   Some {| RegionCount := if phase then 3 else 2;
           FwRegion :=
             [ {| ToUpdateAddress := tsOff; UpdateSize := ts;
                  SourceAddress :=
                    addN arch (addN arch (wrapN arch ImageHdr) hdr)
                         (wrapN arch tsOff) |};
               {| ToUpdateAddress := rOff; UpdateSize := r;
                  SourceAddress :=
                    addN arch (addN arch (wrapN arch ImageHdr) hdr)
                         (wrapN arch rOff) |};
               if phase
               then {| ToUpdateAddress := nrOff; UpdateSize := nr;
                       SourceAddress :=
                         addN arch (addN arch (wrap32 ImageHdr) hdr) nrOff |}
               else zero_region ] |}).
Proof.
  unfold GetFirmwareUpdateInfo, in_update_phase; simpl.
  destruct (UpdatePartitionB FwPolicy =? 1);
    destruct ((StateMachine FwPolicy =? FW_UPDATE_SM_PART_A)
              || (StateMachine FwPolicy =? FW_UPDATE_SM_PART_B));
    reflexivity.
Qed.

End PlanShape.

(** ** Region layout and update plan *)

Section PlanProperties.
Variable arch : ARCH.
Variable sizeof_EFI_FW_MGMT_CAP_IMAGE_HEADER : Z.
Variables FW_UPDATE_SM_PART_A FW_UPDATE_SM_PART_B : Z.

Local Abbreviation GetInfo :=
  (GetFirmwareUpdateInfo arch sizeof_EFI_FW_MGMT_CAP_IMAGE_HEADER
     FW_UPDATE_SM_PART_A FW_UPDATE_SM_PART_B).
Local Abbreviation in_phase :=
  (in_update_phase FW_UPDATE_SM_PART_A FW_UPDATE_SM_PART_B).

(** The offsets of the returned plan are the spec's layout reduced modulo
    2^32, for any sizes at all. *)
Lemma GetFirmwareUpdateInfo_offsets fm ts r nr ImageHdr FwPolicy :
  let '(tsOff, rOff, nrOff) :=
    ComputeLayout_spec (RomSize fm) ts r nr (UpdatePartitionB FwPolicy =? 1) in
  plan_offsets (GetInfo (Some fm) (ts, r, nr) ImageHdr FwPolicy) =
  Some (if in_phase FwPolicy
        then [wrap32 tsOff; wrap32 rOff; wrap32 nrOff]
        else [wrap32 tsOff; wrap32 rOff]).
Proof.
  rewrite GetFirmwareUpdateInfo_plan. unfold ComputeLayout_spec, plan_offsets.
  destruct (offsets32_spec (RomSize fm) ts r nr) as (Hnr & Hr & HrB).
  assert (HtsB : sub32 (sub32 (RomSize fm) ts) ts
                 = wrap32 (RomSize fm - ts - ts))
    by (unfold sub32 at 1; unfold sub32; apply Zminus_mod_idemp_l).
  rewrite Hnr, HrB, Hr, HtsB.
  destruct (UpdatePartitionB FwPolicy =? 1), (in_phase FwPolicy); reflexivity.
Qed.

(** C1 (amended): [GetFirmwareUpdateInfo] does not check the sizes.  For
    every flash map and every three region sizes, also when
    [2*(topSwapSize+redundantSize)+nonRedundantSize > romSize] or a size
    is 0, it returns [EFI_SUCCESS] with a plan of two or three regions
    whose offsets are the layout formulas reduced modulo 2^32.  Its only
    failure is [EFI_NOT_FOUND], with no plan, when there is no flash map. *)
Theorem GetFirmwareUpdateInfo_no_size_check fm ts r nr ImageHdr FwPolicy :
  let res := GetInfo (Some fm) (ts, r, nr) ImageHdr FwPolicy in
  let '(tsOff, rOff, nrOff) :=
    ComputeLayout_spec (RomSize fm) ts r nr (UpdatePartitionB FwPolicy =? 1) in
  res.1 = EFI_SUCCESS
  /\ plan_offsets res =
       Some (if in_phase FwPolicy
             then [wrap32 tsOff; wrap32 rOff; wrap32 nrOff]
             else [wrap32 tsOff; wrap32 rOff])
  /\ GetInfo None (ts, r, nr) ImageHdr FwPolicy = (EFI_NOT_FOUND, None).
Proof.
  intros res.
  pose proof (GetFirmwareUpdateInfo_offsets fm ts r nr ImageHdr FwPolicy) as Hoff.
  destruct (ComputeLayout_spec _ _ _ _ _) as [[tsOff rOff] nrOff]. subst res.
  split; [by rewrite GetFirmwareUpdateInfo_plan |].
  split; [exact Hoff | apply GetFirmwareUpdateInfo_no_flash_map].
Qed.

End PlanProperties.

(** C1 (counterexample): three regions that need 0x420000 bytes, a ROM
    of 0x100000 bytes; the call succeeds and returns a plan of three
    regions, two of them at wrapped offsets. *)
Lemma GetFirmwareUpdateInfo_overflow_accepted :
  let res :=
    GetFirmwareUpdateInfo IA32 sample_hdr_size sample_SM_PART_A
      sample_SM_PART_B (Some small_flash_map) scenario_sizes 0x10000000
      (policy false sample_SM_PART_A) in
  2 * (0x10000 + 0x100000) + 0x200000 > RomSize small_flash_map
  /\ ~ layout_fits (RomSize small_flash_map) 0x10000 0x100000 0x200000
  /\ res.1 = EFI_SUCCESS
  /\ EFI_ERROR res.1 = false
  /\ plan_offsets res = Some [0xF0000; 0xFFFE0000; 0xFFCE0000].
Proof.
  repeat split; try reflexivity.
  unfold layout_fits; simpl. lia.
Qed.

(** Under the spec's precondition no subtraction of the layout wraps. *)
Lemma layout_no_wrap rom ts r nr :
  is_u32 rom -> layout_fits rom ts r nr ->
  sub32 rom ts = rom - ts
  /\ sub32 (sub32 rom ts) ts = rom - 2 * ts
  /\ sub32 (sub32 (sub32 rom ts) ts) r = rom - 2 * ts - r
  /\ sub32 (sub32 (sub32 (sub32 rom ts) ts) r) r = rom - 2 * ts - 2 * r
  /\ sub32 (sub32 rom (mul32 (add32 ts r) 2)) nr
       = rom - 2 * ts - 2 * r - nr.
Proof.
  intros Hrom (Hts & Hr & Hnr & Hfit). unfold is_u32 in Hrom.
  assert (H1 : sub32 rom ts = rom - ts)
    by (apply wrap32_small; unfold is_u32; lia).
  assert (H2 : sub32 (rom - ts) ts = rom - 2 * ts)
    by (unfold sub32; rewrite wrap32_small; unfold is_u32; lia).
  assert (H3 : sub32 (rom - 2 * ts) r = rom - 2 * ts - r)
    by (apply wrap32_small; unfold is_u32; lia).
  assert (H4 : sub32 (rom - 2 * ts - r) r = rom - 2 * ts - 2 * r)
    by (unfold sub32; rewrite wrap32_small; unfold is_u32; lia).
  assert (H5 : add32 ts r = ts + r)
    by (apply wrap32_small; unfold is_u32; lia).
  assert (H6 : mul32 (ts + r) 2 = 2 * ts + 2 * r)
    by (unfold mul32; rewrite wrap32_small; unfold is_u32; lia).
  assert (H7 : sub32 rom (2 * ts + 2 * r) = rom - 2 * ts - 2 * r)
    by (unfold sub32; rewrite wrap32_small; unfold is_u32; lia).
  assert (H8 : sub32 (rom - 2 * ts - 2 * r) nr = rom - 2 * ts - 2 * r - nr)
    by (apply wrap32_small; unfold is_u32; lia).
  rewrite H1, H2, H3, H4, H5, H6, H7, H8. done.
Qed.

Section PlanClaims.
Variable arch : ARCH.
Variable sizeof_EFI_FW_MGMT_CAP_IMAGE_HEADER : Z.
Variables FW_UPDATE_SM_PART_A FW_UPDATE_SM_PART_B : Z.

Local Abbreviation GetInfo :=
  (GetFirmwareUpdateInfo arch sizeof_EFI_FW_MGMT_CAP_IMAGE_HEADER
     FW_UPDATE_SM_PART_A FW_UPDATE_SM_PART_B).
Local Abbreviation in_phase :=
  (in_update_phase FW_UPDATE_SM_PART_A FW_UPDATE_SM_PART_B).

(** C2: when all sizes are positive and
    [2*(topSwapSize+redundantSize)+nonRedundantSize <= romSize], the
    regions of the plan, for either target copy and in every phase, lie
    within [0, romSize) and their byte intervals
    [DestinationOffset, DestinationOffset+Size) are pairwise disjoint. *)
Theorem GetFirmwareUpdateInfo_regions_disjoint_in_rom
    fm ts r nr ImageHdr FwPolicy :
  is_u32 (RomSize fm) ->
  layout_fits (RomSize fm) ts r nr ->
  exists plan,
    GetInfo (Some fm) (ts, r, nr) ImageHdr FwPolicy = (EFI_SUCCESS, Some plan)
    /\ length (plan_regions plan) = (if in_phase FwPolicy then 3 else 2)%nat
    /\ (forall i ri, plan_regions plan !! i = Some ri ->
          region_in_rom (RomSize fm) ri)
    /\ (forall i j ri rj, i <> j ->
          plan_regions plan !! i = Some ri ->
          plan_regions plan !! j = Some rj ->
          regions_disjoint ri rj).
Proof.
  intros Hrom Hfit.
  destruct (layout_no_wrap _ _ _ _ Hrom Hfit) as (H1 & H2 & H3 & H4 & H5).
  destruct Hfit as (Hts & Hr & Hnr & Hfit). unfold is_u32 in Hrom.
  rewrite GetFirmwareUpdateInfo_plan, H5, H4, H3, H2, H1.
  eexists; split; [reflexivity |].
  unfold plan_regions, region_in_rom, regions_disjoint, region_end.
  destruct (UpdatePartitionB FwPolicy =? 1), (in_phase FwPolicy); simpl;
    (split; [reflexivity |]); split.
  all: try (intros [|[|[|i]]] ri Hi; simplify_eq/=; lia).
  all: intros [|[|[|i]]] [|[|[|j]]] ri rj Hne Hi Hj; simplify_eq/=; lia.
Qed.

(** C3 (amended): the scenario of the spec.  With [romSize = 0x1000000],
    [topSwapSize = 0x10000], [redundantSize = 0x100000] and
    [nonRedundantSize = 0x200000] the plan for copy A has the offsets
    0xFF0000, 0xEE0000, 0xBE0000 and the plan for copy B the offsets
    0xFE0000, 0xDE0000, 0xBE0000 (the non-redundant one unchanged);
    outside the two update phases the plan has the first two of each. *)
Theorem GetFirmwareUpdateInfo_scenario ImageHdr sm :
  plan_offsets (GetInfo (Some scenario_flash_map) scenario_sizes ImageHdr
                        (policy false sm))
    = Some (0xFF0000 :: 0xEE0000 ::
            if in_phase (policy false sm) then [0xBE0000] else [])
  /\ plan_offsets (GetInfo (Some scenario_flash_map) scenario_sizes ImageHdr
                           (policy true sm))
       = Some (0xFE0000 :: 0xDE0000 ::
               if in_phase (policy true sm) then [0xBE0000] else [])
  /\ plan_offsets (GetInfo (Some scenario_flash_map) scenario_sizes ImageHdr
                           (policy false FW_UPDATE_SM_PART_A))
       = Some [0xFF0000; 0xEE0000; 0xBE0000]
  /\ plan_offsets (GetInfo (Some scenario_flash_map) scenario_sizes ImageHdr
                           (policy true FW_UPDATE_SM_PART_B))
       = Some [0xFE0000; 0xDE0000; 0xBE0000].
Proof.
  unfold scenario_sizes. rewrite !GetFirmwareUpdateInfo_plan.
  repeat split.
  - destruct (in_phase (policy false sm)); reflexivity.
  - destruct (in_phase (policy true sm)); reflexivity.
  - unfold in_update_phase; simpl. by rewrite Z.eqb_refl.
  - unfold in_update_phase; simpl. by rewrite Z.eqb_refl, orb_true_r.
Qed.

(** Copy symmetry in [UINT32] arithmetic, for any sizes: the top-swap and
    redundant offsets of copy B are those of copy A less the region size
    modulo 2^32, and the two plans share the non-redundant offset. *)
Lemma GetFirmwareUpdateInfo_copy_symmetry_mod fm ts r nr ImageHdr sm :
  exists tsA rA tsB rB rest,
    plan_offsets (GetInfo (Some fm) (ts, r, nr) ImageHdr (policy false sm))
      = Some (tsA :: rA :: rest)
    /\ plan_offsets (GetInfo (Some fm) (ts, r, nr) ImageHdr (policy true sm))
         = Some (tsB :: rB :: rest)
    /\ tsB = wrap32 (tsA - ts)
    /\ rB = wrap32 (rA - r)
    /\ (is_u32 (RomSize fm) -> 0 <= ts -> 2 * ts <= RomSize fm ->
          tsB = tsA - ts)
    /\ (is_u32 (RomSize fm) -> 0 <= ts -> 0 <= r ->
          2 * (ts + r) <= RomSize fm -> rB = rA - r).
Proof.
  rewrite !GetFirmwareUpdateInfo_plan. unfold plan_offsets, plan_regions.
  change (in_phase (policy true sm)) with (in_phase (policy false sm)).
  exists (sub32 (RomSize fm) ts), (sub32 (sub32 (sub32 (RomSize fm) ts) ts) r),
    (sub32 (sub32 (RomSize fm) ts) ts),
    (sub32 (sub32 (sub32 (sub32 (RomSize fm) ts) ts) r) r),
    (if in_phase (policy false sm)
     then [sub32 (sub32 (RomSize fm) (mul32 (add32 ts r) 2)) nr] else []).
  split; [by destruct (in_phase (policy false sm)) |].
  split; [by destruct (in_phase (policy false sm)) |].
  split; [reflexivity |]. split; [reflexivity |].
  unfold is_u32. split.
  - intros Hrom Hts Hfit. unfold sub32.
    rewrite (wrap32_small (RomSize fm - ts)) by (unfold is_u32; lia).
    apply wrap32_small; unfold is_u32; lia.
  - intros Hrom Hts Hr Hfit. unfold sub32.
    rewrite (wrap32_small (RomSize fm - ts)) by (unfold is_u32; lia).
    rewrite (wrap32_small (RomSize fm - ts - ts)) by (unfold is_u32; lia).
    rewrite (wrap32_small (RomSize fm - ts - ts - r)) by (unfold is_u32; lia).
    apply wrap32_small; unfold is_u32; lia.
Qed.

(** C4: for every ROM size and region sizes that meet the precondition of
    the layout (sizes positive,
    [2*(topSwapSize+redundantSize)+nonRedundantSize <= romSize]), the
    plan for copy B has its top-swap offset exactly [topSwapSize] lower
    and its redundant offset exactly [redundantSize] lower than the plan
    for copy A, and the non-redundant offset, where the phase includes
    that region, is the same in both. *)
Theorem GetFirmwareUpdateInfo_copy_symmetry fm ts r nr ImageHdr sm :
  is_u32 (RomSize fm) ->
  layout_fits (RomSize fm) ts r nr ->
  exists tsA rA tsB rB rest,
    plan_offsets (GetInfo (Some fm) (ts, r, nr) ImageHdr (policy false sm))
      = Some (tsA :: rA :: rest)
    /\ plan_offsets (GetInfo (Some fm) (ts, r, nr) ImageHdr (policy true sm))
         = Some (tsB :: rB :: rest)
    /\ tsB = tsA - ts
    /\ rB = rA - r
    /\ rest = (if in_phase (policy false sm)
               then [RomSize fm - 2 * (ts + r) - nr] else []).
Proof.
  intros Hrom Hfit.
  destruct (layout_no_wrap _ _ _ _ Hrom Hfit) as (H1 & H2 & H3 & H4 & H5).
  rewrite !GetFirmwareUpdateInfo_plan, H5, H4, H3, H2, H1.
  change (in_phase (policy true sm)) with (in_phase (policy false sm)).
  cbn [policy UpdatePartitionB Z.eqb Pos.eqb].
  unfold plan_offsets, plan_regions.
  exists (RomSize fm - ts), (RomSize fm - 2 * ts - r),
    (RomSize fm - 2 * ts), (RomSize fm - 2 * ts - 2 * r),
    (if in_phase (policy false sm)
     then [RomSize fm - 2 * (ts + r) - nr] else []).
  replace (RomSize fm - 2 * (ts + r) - nr)
    with (RomSize fm - 2 * ts - 2 * r - nr) by lia.
  destruct (in_phase (policy false sm)); cbn [RegionCount FwRegion];
    change (Z.to_nat 3) with 3%nat; change (Z.to_nat 2) with 2%nat;
    cbn [take fmap list_fmap option_fmap option_map ToUpdateAddress];
    repeat split; lia.
Qed.

(** C5: with a flash map the call succeeds; the plan has exactly two
    regions, top-swap and redundant, when the state machine is in neither
    of the phases [FW_UPDATE_SM_PART_A] and [FW_UPDATE_SM_PART_B], and
    exactly three, the non-redundant region added, when it is in one of
    them. *)
Theorem GetFirmwareUpdateInfo_phase_gating fm ts r nr ImageHdr FwPolicy :
  let res := GetInfo (Some fm) (ts, r, nr) ImageHdr FwPolicy in
  res.1 = EFI_SUCCESS
  /\ (StateMachine FwPolicy <> FW_UPDATE_SM_PART_A ->
      StateMachine FwPolicy <> FW_UPDATE_SM_PART_B ->
      RegionCount <$> res.2 = Some 2 /\ plan_sizes res = Some [ts; r])
  /\ (StateMachine FwPolicy = FW_UPDATE_SM_PART_A
      \/ StateMachine FwPolicy = FW_UPDATE_SM_PART_B ->
      RegionCount <$> res.2 = Some 3 /\ plan_sizes res = Some [ts; r; nr]).
Proof.
  intros res; subst res. rewrite GetFirmwareUpdateInfo_plan.
  unfold in_update_phase, plan_sizes, plan_regions.
  split; [reflexivity |]. split.
  - intros HA HB.
    apply Z.eqb_neq in HA, HB. rewrite HA, HB. by simpl.
  - intros [HA | HB].
    + apply Z.eqb_eq in HA. rewrite HA. by simpl.
    + apply Z.eqb_eq in HB. rewrite HB, orb_true_r. by simpl.
Qed.

(** The sources of regions 0 and 1 are the capsule address plus the
    header size plus the region's offset, at pointer width. *)
Lemma GetFirmwareUpdateInfo_sources_01 fm ts r nr ImageHdr FwPolicy :
  exists plan r0 r1,
    GetInfo (Some fm) (ts, r, nr) ImageHdr FwPolicy = (EFI_SUCCESS, Some plan)
    /\ FwRegion plan !! 0%nat = Some r0 /\ FwRegion plan !! 1%nat = Some r1
    /\ SourceAddress r0
         = wrapN arch (ImageHdr + sizeof_EFI_FW_MGMT_CAP_IMAGE_HEADER
                       + ToUpdateAddress r0)
    /\ SourceAddress r1
         = wrapN arch (ImageHdr + sizeof_EFI_FW_MGMT_CAP_IMAGE_HEADER
                       + ToUpdateAddress r1).
Proof.
  rewrite GetFirmwareUpdateInfo_plan.
  eexists _, _, _. split; [reflexivity |].
  split; [reflexivity |]. split; [reflexivity |].
  cbn [SourceAddress ToUpdateAddress].
  by rewrite !source_sum.
Qed.

(** So is the source of region 2 as long as the capsule lies below
    4 GiB, which is always the case on a 32-bit target. *)
Lemma GetFirmwareUpdateInfo_source_2_low fm ts r nr ImageHdr FwPolicy :
  in_phase FwPolicy = true ->
  is_u32 ImageHdr ->
  exists plan r2,
    GetInfo (Some fm) (ts, r, nr) ImageHdr FwPolicy = (EFI_SUCCESS, Some plan)
    /\ plan_regions plan !! 2%nat = Some r2
    /\ SourceAddress r2
         = wrapN arch (ImageHdr + sizeof_EFI_FW_MGMT_CAP_IMAGE_HEADER
                       + ToUpdateAddress r2).
Proof.
  intros Hphase Himg. rewrite GetFirmwareUpdateInfo_plan, Hphase.
  eexists _, _. split; [reflexivity |]. split; [reflexivity |].
  cbn [SourceAddress ToUpdateAddress].
  rewrite (wrap32_small ImageHdr) by exact Himg.
  unfold addN at 2. by rewrite addN_wrap_l.
Qed.

End PlanClaims.

(** C2 (witness): the scenario of the spec meets the precondition. *)
Lemma GetFirmwareUpdateInfo_regions_disjoint_in_rom_witness :
  exists plan,
    GetFirmwareUpdateInfo X64 sample_hdr_size sample_SM_PART_A sample_SM_PART_B
      (Some scenario_flash_map) (0x10000, 0x100000, 0x200000) 0x10000000
      (policy true sample_SM_PART_B) = (EFI_SUCCESS, Some plan)
    /\ length (plan_regions plan) = 3%nat
    /\ (forall i ri, plan_regions plan !! i = Some ri ->
          region_in_rom 0x1000000 ri)
    /\ (forall i j ri rj, i <> j ->
          plan_regions plan !! i = Some ri ->
          plan_regions plan !! j = Some rj ->
          regions_disjoint ri rj).
Proof.
  apply (GetFirmwareUpdateInfo_regions_disjoint_in_rom X64 sample_hdr_size
           sample_SM_PART_A sample_SM_PART_B scenario_flash_map
           0x10000 0x100000 0x200000 0x10000000 (policy true sample_SM_PART_B)).
  - cbv [is_u32 scenario_flash_map RomSize]; lia.
  - cbv [layout_fits scenario_flash_map RomSize]; lia.
Defined.

(** C3 (counterexample): in the scenario of the spec the redundant region
    of copy A is at 0xEE0000, below the backup top-swap region, not at
    0xEF0000, and the non-redundant region at 0xBE0000, not at 0xC00000;
    for copy B the redundant region is at 0xDE0000, not at 0xDF0000. *)
Lemma GetFirmwareUpdateInfo_scenario_offsets_differ :
  let resA :=
    GetFirmwareUpdateInfo IA32 sample_hdr_size sample_SM_PART_A
      sample_SM_PART_B (Some scenario_flash_map) scenario_sizes 0x10000000
      (policy false sample_SM_PART_A) in
  let resB :=
    GetFirmwareUpdateInfo IA32 sample_hdr_size sample_SM_PART_A
      sample_SM_PART_B (Some scenario_flash_map) scenario_sizes 0x10000000
      (policy true sample_SM_PART_A) in
  plan_offsets resA = Some [0xFF0000; 0xEE0000; 0xBE0000]
  /\ plan_offsets resA <> Some [0xFF0000; 0xEF0000; 0xC00000]
  /\ plan_offsets resB = Some [0xFE0000; 0xDE0000; 0xBE0000]
  /\ plan_offsets resB <> Some [0xFE0000; 0xDF0000; 0xC00000].
Proof. repeat split; try reflexivity; discriminate. Qed.

(** C4 (witness): the scenario of the spec, in phase [PART_A]. *)
Lemma GetFirmwareUpdateInfo_copy_symmetry_witness :
  exists tsA rA tsB rB rest,
    plan_offsets
      (GetFirmwareUpdateInfo IA32 sample_hdr_size sample_SM_PART_A
         sample_SM_PART_B (Some scenario_flash_map)
         (0x10000, 0x100000, 0x200000) 0x10000000
         (policy false sample_SM_PART_A)) = Some (tsA :: rA :: rest)
    /\ plan_offsets
         (GetFirmwareUpdateInfo IA32 sample_hdr_size sample_SM_PART_A
            sample_SM_PART_B (Some scenario_flash_map)
            (0x10000, 0x100000, 0x200000) 0x10000000
            (policy true sample_SM_PART_A)) = Some (tsB :: rB :: rest)
    /\ tsB = tsA - 0x10000
    /\ rB = rA - 0x100000
    /\ rest = (if in_update_phase sample_SM_PART_A sample_SM_PART_B
                    (policy false sample_SM_PART_A)
               then [RomSize scenario_flash_map
                     - 2 * (0x10000 + 0x100000) - 0x200000]
               else []).
Proof.
  apply (GetFirmwareUpdateInfo_copy_symmetry IA32 sample_hdr_size
           sample_SM_PART_A sample_SM_PART_B scenario_flash_map
           0x10000 0x100000 0x200000 0x10000000 sample_SM_PART_A).
  - cbv [is_u32 scenario_flash_map RomSize]; lia.
  - cbv [layout_fits scenario_flash_map RomSize]; lia.
Defined.

(** C5 (witness): phase [PART_B] gives three regions, another phase
    two. *)
Lemma GetFirmwareUpdateInfo_phase_gating_witness :
  RegionCount <$>
    (GetFirmwareUpdateInfo IA32 sample_hdr_size sample_SM_PART_A
       sample_SM_PART_B (Some scenario_flash_map)
       (0x10000, 0x100000, 0x200000) 0x10000000
       (policy false sample_SM_PART_B)).2 = Some 3
  /\ RegionCount <$>
       (GetFirmwareUpdateInfo IA32 sample_hdr_size sample_SM_PART_A
          sample_SM_PART_B (Some scenario_flash_map)
          (0x10000, 0x100000, 0x200000) 0x10000000
          (policy false sample_SM_other)).2 = Some 2.
Proof.
  split.
  - apply (GetFirmwareUpdateInfo_phase_gating IA32 sample_hdr_size
             sample_SM_PART_A sample_SM_PART_B scenario_flash_map
             0x10000 0x100000 0x200000 0x10000000
             (policy false sample_SM_PART_B)).
    right; reflexivity.
  - apply (GetFirmwareUpdateInfo_phase_gating IA32 sample_hdr_size
             sample_SM_PART_A sample_SM_PART_B scenario_flash_map
             0x10000 0x100000 0x200000 0x10000000
             (policy false sample_SM_other)); simpl; unfold sample_SM_other,
      sample_SM_PART_A, sample_SM_PART_B; lia.
Defined.

(** C6: a 64-bit build with the capsule at 4 GiB, in phase
    [FW_UPDATE_SM_PART_A].  Regions 0 and 1 take their source from the
    full capsule address; region 2 takes it from the address cut to 32
    bits, 0xBE0020 instead of 0x100BE0020. *)
Lemma GetFirmwareUpdateInfo_region2_source_truncated :
  let ImageHdr := 0x100000000 in
  let res :=
    GetFirmwareUpdateInfo X64 sample_hdr_size sample_SM_PART_A
      sample_SM_PART_B (Some scenario_flash_map) scenario_sizes ImageHdr
      (policy false sample_SM_PART_A) in
  plan_offsets res = Some [0xFF0000; 0xEE0000; 0xBE0000]
  /\ plan_sources res = Some [0x100FF0020; 0x100EE0020; 0xBE0020]
  /\ 0x100FF0020 = ImageHdr + sample_hdr_size + 0xFF0000
  /\ 0x100EE0020 = ImageHdr + sample_hdr_size + 0xEE0000
  /\ 0xBE0020 <> ImageHdr + sample_hdr_size + 0xBE0000.
Proof. repeat split; try reflexivity; discriminate. Qed.

(** ** Stage 1A locator *)

(** The two conversions of [PlatformGetStage1AOffset], with every
    truncation folded into the last one. *)
Lemma locate_sum arch ImageHdr hdr rom base :
  wrap32 (addN arch (addN arch (wrapN arch ImageHdr) hdr)
                    (wrap32 (sub64 rom (sub64 0x100000000 (wrap32 base)))))
    = wrap32 (ImageHdr + hdr + (rom - (0x100000000 - base))).
Proof.
  unfold addN, sub64, wrapN, wrap64, wrap32.
  destruct arch; simpl UINTN_bits;
    Z.to_euclidean_division_equations; lia.
Qed.

Section LocatorClaims.
Variable arch : ARCH.
Variable sizeof_EFI_FW_MGMT_CAP_IMAGE_HEADER : Z.
Variable FLASH_MAP_SIG_STAGE1A : Z.

Local Abbreviation Locate :=
  (PlatformGetStage1AOffset arch sizeof_EFI_FW_MGMT_CAP_IMAGE_HEADER
     FLASH_MAP_SIG_STAGE1A).
Local Abbreviation entry FlashMapPtr :=
  (flash_map_entry FlashMapPtr FLASH_MAP_SIG_STAGE1A).
Local Abbreviation hdr := sizeof_EFI_FW_MGMT_CAP_IMAGE_HEADER.

(** The lookup reports [EFI_NOT_FOUND] exactly when the entry is absent. *)
Lemma GetComponentInfoByPartition_not_found FlashMapPtr Signature copy b s :
  (GetComponentInfoByPartition FlashMapPtr Signature copy b s).1.1
    = EFI_NOT_FOUND
  <-> flash_map_entry FlashMapPtr Signature copy = None.
Proof.
  unfold GetComponentInfoByPartition.
  destruct (flash_map_entry _ _ _) as [[? ?]|]; simpl; split; congruence.
Qed.

(** An entry that the requested copy has is converted and returned. *)
Lemma PlatformGetStage1AOffset_found fm ImageHdr copy b0 s0 base size :
  entry (Some fm) copy = Some (base, size) ->
  Locate (Some fm) ImageHdr copy (Some b0) (Some s0)
    = (EFI_SUCCESS,
       Some (wrap32 (ImageHdr + hdr + (RomSize fm - (0x100000000 - base)))),
       Some (wrap32 size)).
Proof.
  intros Hentry. unfold PlatformGetStage1AOffset, GetComponentInfoByPartition.
  rewrite Hentry. cbn [bool_decide decide_rel andb EFI_ERROR].
  replace (copy && bool_decide (EFI_SUCCESS = EFI_NOT_FOUND)) with false
    by (by destruct copy).
  cbn [EFI_ERROR]. by rewrite locate_sum.
Qed.

(** Without a primary entry the primary lookup fails and leaves the
    slots alone. *)
Lemma PlatformGetStage1AOffset_primary_missing fm ImageHdr b0 s0 :
  entry (Some fm) false = None ->
  Locate (Some fm) ImageHdr false (Some b0) (Some s0)
    = (EFI_NOT_FOUND, Some b0, Some s0).
Proof.
  intros Hentry. unfold PlatformGetStage1AOffset, GetComponentInfoByPartition.
  by rewrite Hentry.
Qed.

(** Without a backup entry the backup request runs the primary lookup. *)
Lemma PlatformGetStage1AOffset_backup_missing FlashMapPtr ImageHdr Base Size :
  entry FlashMapPtr true = None ->
  Locate FlashMapPtr ImageHdr true Base Size
    = Locate FlashMapPtr ImageHdr false Base Size.
Proof.
  intros Hentry. unfold PlatformGetStage1AOffset, GetComponentInfoByPartition.
  destruct Base as [b0|], Size as [s0|], FlashMapPtr as [fm|]; try reflexivity.
  rewrite Hentry. cbn [andb].
  by rewrite bool_decide_eq_true_2.
Qed.

(** C7: a request for the backup copy of Stage 1A whose lookup reports
    [EFI_NOT_FOUND] returns what the request for the primary copy
    returns, the primary entry's converted base and its size when the
    primary entry exists; and it returns [EFI_NOT_FOUND] only when the
    flash map has neither the backup nor the primary entry. *)
Theorem PlatformGetStage1AOffset_backup_fallback FlashMapPtr ImageHdr b0 s0 :
  let backup := Locate FlashMapPtr ImageHdr true (Some b0) (Some s0) in
  let primary := Locate FlashMapPtr ImageHdr false (Some b0) (Some s0) in
  ((GetComponentInfoByPartition FlashMapPtr FLASH_MAP_SIG_STAGE1A true b0 s0).1.1
     = EFI_NOT_FOUND -> backup = primary)
  /\ (forall fm base size,
        FlashMapPtr = Some fm ->
        entry FlashMapPtr true = None ->
        entry FlashMapPtr false = Some (base, size) ->
        backup
          = (EFI_SUCCESS,
             Some (wrap32 (ImageHdr + hdr
                           + (RomSize fm - (0x100000000 - base)))),
             Some (wrap32 size)))
  /\ (backup.1.1 = EFI_NOT_FOUND <->
      entry FlashMapPtr true = None /\ entry FlashMapPtr false = None).
Proof.
  intros backup primary; subst backup primary. split; [| split].
  - intros Hnf. apply GetComponentInfoByPartition_not_found in Hnf.
    by apply PlatformGetStage1AOffset_backup_missing.
  - intros fm base size -> Hb Hp.
    rewrite PlatformGetStage1AOffset_backup_missing by exact Hb.
    by apply PlatformGetStage1AOffset_found.
  - destruct FlashMapPtr as [fm|]; [| by split].
    destruct (entry (Some fm) true) as [[bb bs]|] eqn:Hb.
    + rewrite (PlatformGetStage1AOffset_found _ _ _ _ _ _ _ Hb).
      simpl. split; [discriminate | by intros [? _]].
    + rewrite PlatformGetStage1AOffset_backup_missing by exact Hb.
      destruct (entry (Some fm) false) as [[pb ps]|] eqn:Hp.
      * rewrite (PlatformGetStage1AOffset_found _ _ _ _ _ _ _ Hp).
        simpl. split; [discriminate | by intros [_ ?]].
      * rewrite PlatformGetStage1AOffset_primary_missing by exact Hp.
        by split.
Qed.

(** C8 (amended): on success [*Base] is the capsule address plus the
    header size plus the ROM-relative offset
    [romSize - (0x100000000 - base)] of the entry found, reduced modulo
    2^32 because [*Base] is a [UINT32]; it is that sum itself when the sum
    lies in [0, 2^32).  [*Size] is the size of the entry found. *)
Theorem PlatformGetStage1AOffset_success_mod
    FlashMapPtr ImageHdr IsBackup Base Size Base' Size' :
  Locate FlashMapPtr ImageHdr IsBackup Base Size = (EFI_SUCCESS, Base', Size') ->
  exists fm base size,
    FlashMapPtr = Some fm
    /\ (entry FlashMapPtr IsBackup = Some (base, size)
        \/ (IsBackup = true /\ entry FlashMapPtr true = None
            /\ entry FlashMapPtr false = Some (base, size)))
    /\ let romOffset := RomSize fm - (0x100000000 - base) in
       Base' = Some (wrap32 (ImageHdr + hdr + romOffset))
       /\ (is_u32 (ImageHdr + hdr + romOffset) ->
           Base' = Some (ImageHdr + hdr + romOffset))
       /\ Size' = Some (wrap32 size)
       /\ (is_u32 size -> Size' = Some size).
Proof.
  intros Hok.
  destruct Base as [b0|], Size as [s0|]; try discriminate.
  destruct FlashMapPtr as [fm|]; [| discriminate].
  assert (Hshape : forall copy base size,
            entry (Some fm) copy = Some (base, size) ->
            Locate (Some fm) ImageHdr copy (Some b0) (Some s0)
              = (EFI_SUCCESS, Base', Size') ->
            let romOffset := RomSize fm - (0x100000000 - base) in
            Base' = Some (wrap32 (ImageHdr + hdr + romOffset))
            /\ (is_u32 (ImageHdr + hdr + romOffset) ->
                Base' = Some (ImageHdr + hdr + romOffset))
            /\ Size' = Some (wrap32 size)
            /\ (is_u32 size -> Size' = Some size)).
  { intros copy base size He Hrun.
    rewrite (PlatformGetStage1AOffset_found _ _ _ _ _ _ _ He) in Hrun.
    injection Hrun as <- <-. cbv zeta.
    repeat split; intros Hsmall; by rewrite wrap32_small. }
  destruct (entry (Some fm) IsBackup) as [[base size]|] eqn:He.
  - exists fm, base, size. split; [done |]. split; [by left |].
    by apply (Hshape IsBackup).
  - destruct IsBackup.
    + rewrite PlatformGetStage1AOffset_backup_missing in Hok by exact He.
      destruct (entry (Some fm) false) as [[base size]|] eqn:Hp.
      * exists fm, base, size. split; [done |]. split; [by right |].
        by apply (Hshape false).
      * rewrite PlatformGetStage1AOffset_primary_missing in Hok by exact Hp.
        discriminate.
    + rewrite PlatformGetStage1AOffset_primary_missing in Hok by exact He.
      discriminate.
Qed.

End LocatorClaims.

(** C7 (witness): a flash map with a primary Stage 1A only. *)
Lemma PlatformGetStage1AOffset_backup_fallback_witness :
  PlatformGetStage1AOffset IA32 sample_hdr_size sample_SIG_STAGE1A
    (Some single_copy_flash_map) 0x10000000 true (Some 0) (Some 0)
  = PlatformGetStage1AOffset IA32 sample_hdr_size sample_SIG_STAGE1A
      (Some single_copy_flash_map) 0x10000000 false (Some 0) (Some 0)
  /\ PlatformGetStage1AOffset IA32 sample_hdr_size sample_SIG_STAGE1A
       (Some single_copy_flash_map) 0x10000000 true (Some 0) (Some 0)
     = (EFI_SUCCESS, Some 0x10FF0020, Some 0x8000).
Proof.
  destruct (PlatformGetStage1AOffset_backup_fallback IA32 sample_hdr_size
              sample_SIG_STAGE1A (Some single_copy_flash_map) 0x10000000 0 0)
    as (Hsame & Hprimary & _).
  split.
  - apply Hsame. reflexivity.
  - apply (Hprimary single_copy_flash_map 0xFFFF0000 0x8000); reflexivity.
Defined.

(** C8 (counterexample): a 64-bit build with the capsule at 4 GiB.  The
    call succeeds and [*Base] is 0xFF0020, not the sum 0x100FF0020 of the
    capsule address, the header size and the ROM offset 0xFF0000. *)
Lemma PlatformGetStage1AOffset_base_truncated :
  let ImageHdr := 0x100000000 in
  let romOffset := 0x1000000 - (0x100000000 - 0xFFFF0000) in
  PlatformGetStage1AOffset X64 sample_hdr_size sample_SIG_STAGE1A
    (Some single_copy_flash_map) ImageHdr false (Some 0) (Some 0)
  = (EFI_SUCCESS, Some 0xFF0020, Some 0x8000)
  /\ flash_map_entry (Some single_copy_flash_map) sample_SIG_STAGE1A false
     = Some (0xFFFF0000, 0x8000)
  /\ 0xFF0020 <> ImageHdr + sample_hdr_size + romOffset.
Proof. repeat split; discriminate. Qed.

(** C8 (witness): the same flash map with the capsule at 256 MiB. *)
Lemma PlatformGetStage1AOffset_success_mod_witness :
  exists fm base size,
    Some single_copy_flash_map = Some fm
    /\ (flash_map_entry (Some single_copy_flash_map) sample_SIG_STAGE1A true
          = Some (base, size)
        \/ (true = true
            /\ flash_map_entry (Some single_copy_flash_map)
                 sample_SIG_STAGE1A true = None
            /\ flash_map_entry (Some single_copy_flash_map)
                 sample_SIG_STAGE1A false = Some (base, size)))
    /\ let romOffset := RomSize fm - (0x100000000 - base) in
       Some 0x10FF0020 = Some (wrap32 (0x10000000 + sample_hdr_size + romOffset))
       /\ (is_u32 (0x10000000 + sample_hdr_size + romOffset) ->
           Some 0x10FF0020 = Some (0x10000000 + sample_hdr_size + romOffset))
       /\ Some 0x8000 = Some (wrap32 size)
       /\ (is_u32 size -> Some 0x8000 = Some size).
Proof.
  apply (PlatformGetStage1AOffset_success_mod IA32 sample_hdr_size
           sample_SIG_STAGE1A (Some single_copy_flash_map) 0x10000000 true
           (Some 0) (Some 0) (Some 0x10FF0020) (Some 0x8000)).
  reflexivity.
Defined.

(** ** Partition switch *)

(** Bit 0 set; the other bits as they were. *)
Lemma lor_BIT0_bits v :
  Z.testbit (Z.lor v BIT0) 0 = true
  /\ forall i, 1 <= i -> Z.testbit (Z.lor v BIT0) i = Z.testbit v i.
Proof.
  split.
  - rewrite Z.lor_spec. change (Z.testbit BIT0 0) with true.
    apply orb_true_r.
  - intros i Hi. rewrite Z.lor_spec.
    change BIT0 with (2 ^ 0). rewrite Z.pow2_bits_false by lia.
    apply orb_false_r.
Qed.

(** Bit 0 cleared; the other bits of a 32-bit value as they were. *)
Lemma land_not_BIT0_bits x :
  Z.testbit (Z.land (wrap32 x) (not32 BIT0)) 0 = false
  /\ forall i, 1 <= i ->
       Z.testbit (Z.land (wrap32 x) (not32 BIT0)) i = Z.testbit (wrap32 x) i.
Proof.
  change (not32 BIT0) with (Z.shiftl (Z.ones 31) 1).
  split.
  - rewrite Z.land_spec, Z.shiftl_spec_low by lia. apply andb_false_r.
  - intros i Hi. rewrite Z.land_spec, Z.shiftl_spec by lia.
    destruct (Z.lt_ge_cases i 32) as [Hlow | Hhigh].
    + rewrite Z.ones_spec_low by lia. apply andb_true_r.
    + rewrite Z.ones_spec_high by lia. unfold wrap32.
      rewrite Z.mod_pow2_bits_high by lia. reflexivity.
Qed.

Section SwitchClaims.
Context {HW : Type} `{MMIO_DEVICE HW}.
Variable PCH_PCR_ADDRESS : Z -> Z -> Z.
Variables PID_RTC_HOST R_RTC_PCR_BUC : Z.

Local Abbreviation Switch :=
  (SetBootPartition PCH_PCR_ADDRESS PID_RTC_HOST R_RTC_PCR_BUC).
Local Abbreviation TopSwapReg :=
  (wrap32 (PCH_PCR_ADDRESS PID_RTC_HOST R_RTC_PCR_BUC)).

(** One run on any device: a read, a write, a read, and success. *)
Lemma SetBootPartition_run Partition (m : MACHINE HW) :
  let rd0 := device_read32 TopSwapReg (hw m) in
  let v := wrap32 rd0.1 in
  let w := written_value Partition v in
  let rd1 := device_read32 TopSwapReg (device_write32 TopSwapReg w rd0.2) in
  Switch Partition m =
  (EFI_SUCCESS,
   {| hw := rd1.2;
      trace := trace m ++ [MmioRead32_event TopSwapReg v;
                           MmioWrite32_event TopSwapReg w;
                           MmioRead32_event TopSwapReg (wrap32 rd1.1)] |}).
Proof.
  unfold SetBootPartition, io_bind, io_ret, MmioRead32, MmioWrite32.
  cbn [hw trace].
  destruct (device_read32 TopSwapReg (hw m)) as [v0 h1]. cbn [fst snd hw trace].
  replace (if decide (Partition = BackupPartition) then _ else _)
    with (written_value Partition (wrap32 v0)) by (by destruct Partition).
  destruct (device_read32 TopSwapReg _) as [v1 h2]. cbn [fst snd].
  by rewrite <- !app_assoc.
Qed.


(** C10: whatever the argument, the value written back agrees with the
    value read in every bit other than bit 0; for an argument that is
    neither [PrimaryPartition] nor [BackupPartition] it is the value read,
    bit 0 included, and the call still returns [EFI_SUCCESS]. *)
Theorem SetBootPartition_keeps_other_bits Partition (m : MACHINE HW) :
  exists v w v' m',
    Switch Partition m = (EFI_SUCCESS, m')
    /\ trace m' = trace m ++ [MmioRead32_event TopSwapReg v;
                              MmioWrite32_event TopSwapReg w;
                              MmioRead32_event TopSwapReg v']
    /\ v = wrap32 (device_read32 TopSwapReg (hw m)).1
    /\ (forall i, 1 <= i -> Z.testbit w i = Z.testbit v i)
    /\ (Partition <> PrimaryPartition -> Partition <> BackupPartition ->
        w = v).
Proof.
  eexists _, _, _, _. split; [apply SetBootPartition_run |].
  cbn [trace]. split; [reflexivity |]. split; [reflexivity |]. split.
  - intros i Hi. destruct Partition; cbn [written_value].
    + by apply land_not_BIT0_bits.
    + by apply lor_BIT0_bits.
    + reflexivity.
  - intros HP HB. by destruct Partition.
Qed.

End SwitchClaims.

(** A register that ignores the write: the value read back differs from
    the value written and the call succeeds all the same. *)
Example SetBootPartition_locked_register :
  SetBootPartition (H := locked_register) sample_PCH_PCR_ADDRESS
    sample_PID_RTC_HOST sample_R_RTC_PCR_BUC BackupPartition locked_machine
  = (EFI_SUCCESS,
     {| hw := 0x20;
        trace := [MmioRead32_event 0xFDC33414 0x20;
                  MmioWrite32_event 0xFDC33414 0x21;
                  MmioRead32_event 0xFDC33414 0x20] |}).
Proof. reflexivity. Qed.


(** C10 (witness): an argument outside the two enumerators, and bit 5 of
    the register across a switch to the primary partition. *)
Lemma SetBootPartition_keeps_other_bits_witness :
  (exists v w v' m',
     SetBootPartition (H := latched_registers) sample_PCH_PCR_ADDRESS
       sample_PID_RTC_HOST sample_R_RTC_PCR_BUC (OtherPartition 2)
       latched_machine = (EFI_SUCCESS, m')
     /\ trace m' = [MmioRead32_event 0xFDC33414 v;
                    MmioWrite32_event 0xFDC33414 w;
                    MmioRead32_event 0xFDC33414 v']
     /\ w = v)
  /\ (exists v w v' m',
        SetBootPartition (H := latched_registers) sample_PCH_PCR_ADDRESS
          sample_PID_RTC_HOST sample_R_RTC_PCR_BUC PrimaryPartition
          latched_machine = (EFI_SUCCESS, m')
        /\ trace m' = [MmioRead32_event 0xFDC33414 v;
                       MmioWrite32_event 0xFDC33414 w;
                       MmioRead32_event 0xFDC33414 v']
        /\ Z.testbit w 5 = Z.testbit v 5).
Proof.
  split.
  - destruct (SetBootPartition_keeps_other_bits (H := latched_registers)
                sample_PCH_PCR_ADDRESS sample_PID_RTC_HOST
                sample_R_RTC_PCR_BUC (OtherPartition 2) latched_machine)
      as (v & w & v' & m' & Hrun & Htrace & _ & _ & Hother).
    exists v, w, v', m'.
    split; [exact Hrun |]. split; [exact Htrace |].
    apply Hother; discriminate.
  - destruct (SetBootPartition_keeps_other_bits (H := latched_registers)
                sample_PCH_PCR_ADDRESS sample_PID_RTC_HOST
                sample_R_RTC_PCR_BUC PrimaryPartition latched_machine)
      as (v & w & v' & m' & Hrun & Htrace & _ & Hbits & _).
    exists v, w, v', m'.
    split; [exact Hrun |]. split; [exact Htrace |].
    apply Hbits. lia.
Defined.

(** * Further properties *)

(** ** The layout across the two copies *)

(** How far a capsule at [ImageHdr] reaches when its payload mirrors a
    ROM of [romSize] bytes, against the width of a pointer. *)
Lemma source_exact arch ImageHdr hdr rom off :
  0 <= ImageHdr -> 0 <= hdr -> 0 <= off < rom ->
  ImageHdr + hdr + rom <= 2 ^ UINTN_bits arch ->
  addN arch (addN arch (wrapN arch ImageHdr) hdr) (wrapN arch off)
    = ImageHdr + hdr + off.
Proof.
  intros Himg Hhdr Hoff Hfit. rewrite source_sum.
  apply Z.mod_small. lia.
Qed.

Lemma source_exact_32 arch ImageHdr hdr rom off :
  is_u32 ImageHdr -> 0 <= hdr -> 0 <= off < rom ->
  ImageHdr + hdr + rom <= 2 ^ UINTN_bits arch ->
  addN arch (addN arch (wrap32 ImageHdr) hdr) off = ImageHdr + hdr + off.
Proof.
  intros Himg Hhdr Hoff Hfit. rewrite (wrap32_small _ Himg).
  unfold is_u32 in Himg. unfold addN, wrapN.
  rewrite (Z.mod_small (ImageHdr + hdr)) by lia.
  apply Z.mod_small. lia.
Qed.

Section PlanLayout.
Variable arch : ARCH.
Variable sizeof_EFI_FW_MGMT_CAP_IMAGE_HEADER : Z.
Variables FW_UPDATE_SM_PART_A FW_UPDATE_SM_PART_B : Z.

Local Abbreviation GetInfo :=
  (GetFirmwareUpdateInfo arch sizeof_EFI_FW_MGMT_CAP_IMAGE_HEADER
     FW_UPDATE_SM_PART_A FW_UPDATE_SM_PART_B).
Local Abbreviation in_phase :=
  (in_update_phase FW_UPDATE_SM_PART_A FW_UPDATE_SM_PART_B).
Local Abbreviation hdr := sizeof_EFI_FW_MGMT_CAP_IMAGE_HEADER.

(** X1: when the layout fits the ROM, the plan for copy B never touches
    the top-swap and redundant regions of the plan for copy A, and the
    other way round: any region of one plan is disjoint from regions 0 and
    1 of the other. *)
Theorem GetFirmwareUpdateInfo_copies_isolated
    fm ts r nr ImageHdr policyA policyB :
  is_u32 (RomSize fm) ->
  layout_fits (RomSize fm) ts r nr ->
  UpdatePartitionB policyA <> 1 ->
  UpdatePartitionB policyB = 1 ->
  exists planA planB,
    GetInfo (Some fm) (ts, r, nr) ImageHdr policyA = (EFI_SUCCESS, Some planA)
    /\ GetInfo (Some fm) (ts, r, nr) ImageHdr policyB
       = (EFI_SUCCESS, Some planB)
    /\ forall i j a b,
         plan_regions planA !! i = Some a ->
         plan_regions planB !! j = Some b ->
         (i < 2 \/ j < 2)%nat ->
         regions_disjoint a b.
Proof.
  intros Hrom Hfit HA HB.
  destruct (layout_no_wrap _ _ _ _ Hrom Hfit) as (H1 & H2 & H3 & H4 & H5).
  destruct Hfit as (Hts & Hr & Hnr & Hfit). unfold is_u32 in Hrom.
  rewrite !GetFirmwareUpdateInfo_plan, H5, H4, H3, H2, H1.
  apply Z.eqb_neq in HA. apply Z.eqb_eq in HB. rewrite HA, HB.
  eexists _, _. split; [reflexivity |]. split; [reflexivity |].
  unfold plan_regions, regions_disjoint, region_end.
  destruct (in_phase policyA), (in_phase policyB); simpl;
    intros [|[|[|i]]] [|[|[|j]]] a b Hi Hj Hij; simplify_eq/=; lia.
Qed.

(** X2: the five regions sit in the ROM as the diagram in
    [GetFirmwareUpdateInfo] draws them, from the top down and without a
    gap: top swap (copy A), top swap backup (copy B), redundant (copy A),
    redundant backup (copy B), non redundant. *)
Theorem GetFirmwareUpdateInfo_layout_contiguous fm ts r nr ImageHdr sm :
  is_u32 (RomSize fm) ->
  layout_fits (RomSize fm) ts r nr ->
  sm = FW_UPDATE_SM_PART_A \/ sm = FW_UPDATE_SM_PART_B ->
  exists a0 a1 a2 b0 b1 b2,
    plan_regions <$> (GetInfo (Some fm) (ts, r, nr) ImageHdr
                              (policy false sm)).2 = Some [a0; a1; a2]
    /\ plan_regions <$> (GetInfo (Some fm) (ts, r, nr) ImageHdr
                                 (policy true sm)).2 = Some [b0; b1; b2]
    /\ region_end a0 = RomSize fm
    /\ region_end b0 = ToUpdateAddress a0
    /\ region_end a1 = ToUpdateAddress b0
    /\ region_end b1 = ToUpdateAddress a1
    /\ region_end a2 = ToUpdateAddress b1
    /\ b2 = a2
    /\ ToUpdateAddress a2 = RomSize fm - (2 * (ts + r) + nr).
Proof.
  intros Hrom Hfit Hsm.
  destruct (layout_no_wrap _ _ _ _ Hrom Hfit) as (H1 & H2 & H3 & H4 & H5).
  rewrite !GetFirmwareUpdateInfo_plan, H5, H4, H3, H2, H1.
  assert (Hphase : forall copyB, in_phase (policy copyB sm) = true).
  { intros copyB. unfold in_update_phase; cbn [policy StateMachine].
    destruct Hsm as [-> | ->]; rewrite Z.eqb_refl; [done | apply orb_true_r]. }
  rewrite !Hphase. cbn [policy UpdatePartitionB Z.eqb Pos.eqb].
  eexists _, _, _, _, _, _.
  split; [reflexivity |]. split; [reflexivity |].
  unfold region_end; cbn [ToUpdateAddress UpdateSize].
  repeat split; lia.
Qed.

(** Source and destination of every region of the plan, when neither
    the layout nor the capsule address wraps. *)
Lemma GetFirmwareUpdateInfo_mirror fm ts r nr ImageHdr FwPolicy :
  is_u32 (RomSize fm) ->
  layout_fits (RomSize fm) ts r nr ->
  is_u32 ImageHdr ->
  0 <= hdr ->
  ImageHdr + hdr + RomSize fm <= 2 ^ UINTN_bits arch ->
  exists plan,
    GetInfo (Some fm) (ts, r, nr) ImageHdr FwPolicy = (EFI_SUCCESS, Some plan)
    /\ forall i ri, plan_regions plan !! i = Some ri ->
         SourceAddress ri = ImageHdr + hdr + ToUpdateAddress ri
         /\ region_in_rom (RomSize fm) ri.
Proof.
  intros Hrom Hfit Himg Hhdr Hcap.
  destruct (layout_no_wrap _ _ _ _ Hrom Hfit) as (H1 & H2 & H3 & H4 & H5).
  destruct Hfit as (Hts & Hr & Hnr & Hfit).
  assert (0 <= ImageHdr) as Himg0 by (unfold is_u32 in Himg; lia).
  unfold is_u32 in Hrom.
  rewrite GetFirmwareUpdateInfo_plan, H5, H4, H3, H2, H1.
  pose proof (fun off => source_exact arch ImageHdr hdr (RomSize fm) off
                           Himg0 Hhdr) as Hsrc.
  pose proof (fun off => source_exact_32 arch ImageHdr hdr (RomSize fm) off
                           Himg Hhdr) as Hsrc2.
  destruct (UpdatePartitionB FwPolicy =? 1), (in_phase FwPolicy);
    rewrite !Hsrc, ?Hsrc2 by lia;
    (eexists; split; [reflexivity |]);
    unfold plan_regions, region_in_rom, region_end;
    intros [|[|[|i]]] ri Hi; simplify_eq/=; lia.
Qed.

(** X3: when the layout fits the ROM and the capsule (header and a
    payload of [romSize] bytes) lies below 4 GiB and within the address
    space, every region of the plan is read from where the payload
    mirrors its destination: the source is the capsule address plus the
    header size plus the destination offset, with no wrap-around, and the
    source interval lies inside the payload. *)
Theorem GetFirmwareUpdateInfo_sources_in_capsule
    fm ts r nr ImageHdr FwPolicy :
  is_u32 (RomSize fm) ->
  layout_fits (RomSize fm) ts r nr ->
  is_u32 ImageHdr ->
  0 <= hdr ->
  ImageHdr + hdr + RomSize fm <= 2 ^ UINTN_bits arch ->
  exists plan,
    GetInfo (Some fm) (ts, r, nr) ImageHdr FwPolicy = (EFI_SUCCESS, Some plan)
    /\ forall i ri, plan_regions plan !! i = Some ri ->
         SourceAddress ri = ImageHdr + hdr + ToUpdateAddress ri
         /\ ImageHdr + hdr <= SourceAddress ri
         /\ SourceAddress ri + UpdateSize ri <= ImageHdr + hdr + RomSize fm.
Proof.
  intros Hrom Hfit Himg Hhdr Hcap.
  destruct (GetFirmwareUpdateInfo_mirror fm ts r nr ImageHdr FwPolicy
              Hrom Hfit Himg Hhdr Hcap) as (plan & Hplan & Hregions).
  exists plan. split; [exact Hplan |].
  intros i ri Hi. destruct (Hregions i ri Hi) as (Hsrc & Hlo & Hhi).
  unfold region_end in Hhi. lia.
Qed.

(** X4: the source of a region of the plan is the capsule address plus
    the header size plus the destination offset, at pointer width, for
    regions 0 and 1 always and for region 2 when the capsule address is
    below 4 GiB, which it always is on a 32-bit build. *)
Theorem GetFirmwareUpdateInfo_sources_uniform fm ts r nr ImageHdr FwPolicy :
  exists plan,
    GetInfo (Some fm) (ts, r, nr) ImageHdr FwPolicy = (EFI_SUCCESS, Some plan)
    /\ forall i ri, plan_regions plan !! i = Some ri ->
         (i < 2)%nat \/ is_u32 ImageHdr ->
         SourceAddress ri = wrapN arch (ImageHdr + hdr + ToUpdateAddress ri).
Proof.
  rewrite GetFirmwareUpdateInfo_plan.
  eexists; split; [reflexivity |].
  unfold plan_regions.
  destruct (in_phase FwPolicy); cbn [RegionCount FwRegion];
    change (Z.to_nat 3) with 3%nat; change (Z.to_nat 2) with 2%nat;
    cbn [take];
    intros [|[|[|i]]] ri Hi Hcase;
    cbn [lookup list_lookup] in Hi; simplify_eq;
    cbn [SourceAddress ToUpdateAddress]; try apply source_sum.
  destruct Hcase as [Hlt | Himg]; [lia |].
  rewrite (wrap32_small _ Himg). unfold addN at 2. by rewrite addN_wrap_l.
Qed.

End PlanLayout.

(** X1 (witness): the scenario ROM, copy A against copy B. *)
Lemma GetFirmwareUpdateInfo_copies_isolated_witness :
  exists planA planB,
    GetFirmwareUpdateInfo IA32 sample_hdr_size sample_SM_PART_A
      sample_SM_PART_B (Some scenario_flash_map)
      (0x10000, 0x100000, 0x200000) 0x10000000
      (policy false sample_SM_PART_A) = (EFI_SUCCESS, Some planA)
    /\ GetFirmwareUpdateInfo IA32 sample_hdr_size sample_SM_PART_A
         sample_SM_PART_B (Some scenario_flash_map)
         (0x10000, 0x100000, 0x200000) 0x10000000
         (policy true sample_SM_PART_B) = (EFI_SUCCESS, Some planB)
    /\ forall i j a b,
         plan_regions planA !! i = Some a ->
         plan_regions planB !! j = Some b ->
         (i < 2 \/ j < 2)%nat ->
         regions_disjoint a b.
Proof.
  apply (GetFirmwareUpdateInfo_copies_isolated IA32 sample_hdr_size
           sample_SM_PART_A sample_SM_PART_B scenario_flash_map
           0x10000 0x100000 0x200000 0x10000000
           (policy false sample_SM_PART_A) (policy true sample_SM_PART_B)).
  - cbv [is_u32 scenario_flash_map RomSize]; lia.
  - cbv [layout_fits scenario_flash_map RomSize]; lia.
  - discriminate.
  - reflexivity.
Defined.

(** X2 (witness): the scenario ROM in phase [PART_A]. *)
Lemma GetFirmwareUpdateInfo_layout_contiguous_witness :
  exists a0 a1 a2 b0 b1 b2,
    plan_regions <$>
      (GetFirmwareUpdateInfo X64 sample_hdr_size sample_SM_PART_A
         sample_SM_PART_B (Some scenario_flash_map)
         (0x10000, 0x100000, 0x200000) 0x10000000
         (policy false sample_SM_PART_A)).2 = Some [a0; a1; a2]
    /\ plan_regions <$>
         (GetFirmwareUpdateInfo X64 sample_hdr_size sample_SM_PART_A
            sample_SM_PART_B (Some scenario_flash_map)
            (0x10000, 0x100000, 0x200000) 0x10000000
            (policy true sample_SM_PART_A)).2 = Some [b0; b1; b2]
    /\ region_end a0 = RomSize scenario_flash_map
    /\ region_end b0 = ToUpdateAddress a0
    /\ region_end a1 = ToUpdateAddress b0
    /\ region_end b1 = ToUpdateAddress a1
    /\ region_end a2 = ToUpdateAddress b1
    /\ b2 = a2
    /\ ToUpdateAddress a2
       = RomSize scenario_flash_map - (2 * (0x10000 + 0x100000) + 0x200000).
Proof.
  apply (GetFirmwareUpdateInfo_layout_contiguous X64 sample_hdr_size
           sample_SM_PART_A sample_SM_PART_B scenario_flash_map
           0x10000 0x100000 0x200000 0x10000000 sample_SM_PART_A).
  - cbv [is_u32 scenario_flash_map RomSize]; lia.
  - cbv [layout_fits scenario_flash_map RomSize]; lia.
  - left; reflexivity.
Defined.

(** X3 (witness): a capsule at 256 MiB on a 64-bit build. *)
Lemma GetFirmwareUpdateInfo_sources_in_capsule_witness :
  exists plan,
    GetFirmwareUpdateInfo X64 sample_hdr_size sample_SM_PART_A
      sample_SM_PART_B (Some scenario_flash_map)
      (0x10000, 0x100000, 0x200000) 0x10000000
      (policy true sample_SM_PART_B) = (EFI_SUCCESS, Some plan)
    /\ forall i ri, plan_regions plan !! i = Some ri ->
         SourceAddress ri = 0x10000000 + sample_hdr_size + ToUpdateAddress ri
         /\ 0x10000000 + sample_hdr_size <= SourceAddress ri
         /\ SourceAddress ri + UpdateSize ri
            <= 0x10000000 + sample_hdr_size + RomSize scenario_flash_map.
Proof.
  apply (GetFirmwareUpdateInfo_sources_in_capsule X64 sample_hdr_size
           sample_SM_PART_A sample_SM_PART_B scenario_flash_map
           0x10000 0x100000 0x200000 0x10000000
           (policy true sample_SM_PART_B)).
  - cbv [is_u32 scenario_flash_map RomSize]; lia.
  - cbv [layout_fits scenario_flash_map RomSize]; lia.
  - cbv [is_u32]; lia.
  - cbv [sample_hdr_size]; lia.
  - cbv [scenario_flash_map RomSize sample_hdr_size UINTN_bits]; lia.
Defined.

(** ** More on the Stage 1A locator *)

Section LocatorProperties.
Variable arch : ARCH.
Variable sizeof_EFI_FW_MGMT_CAP_IMAGE_HEADER : Z.
Variables FW_UPDATE_SM_PART_A FW_UPDATE_SM_PART_B : Z.
Variable FLASH_MAP_SIG_STAGE1A : Z.

Local Abbreviation Locate :=
  (PlatformGetStage1AOffset arch sizeof_EFI_FW_MGMT_CAP_IMAGE_HEADER
     FLASH_MAP_SIG_STAGE1A).
Local Abbreviation GetInfo :=
  (GetFirmwareUpdateInfo arch sizeof_EFI_FW_MGMT_CAP_IMAGE_HEADER
     FW_UPDATE_SM_PART_A FW_UPDATE_SM_PART_B).
Local Abbreviation entry FlashMapPtr :=
  (flash_map_entry FlashMapPtr FLASH_MAP_SIG_STAGE1A).
Local Abbreviation hdr := sizeof_EFI_FW_MGMT_CAP_IMAGE_HEADER.

(** A [NULL] flash map has no entries, so both lookups fail. *)
Lemma PlatformGetStage1AOffset_no_flash_map ImageHdr copy Base Size :
  is_Some Base -> is_Some Size ->
  Locate None ImageHdr copy Base Size = (EFI_NOT_FOUND, Base, Size).
Proof. by intros [b0 ->] [s0 ->]. Qed.

(** An entry inside the ROM window, located in a capsule below 4 GiB:
    nothing wraps. *)
Lemma PlatformGetStage1AOffset_exact fm ImageHdr copy b0 s0 base size :
  flash_map_entry (Some fm) FLASH_MAP_SIG_STAGE1A copy = Some (base, size) ->
  is_u32 (RomSize fm) ->
  0x100000000 - RomSize fm <= base ->
  0 < size ->
  base + size <= 0x100000000 ->
  0 <= ImageHdr -> 0 <= hdr ->
  ImageHdr + hdr + RomSize fm <= 2 ^ 32 ->
  Locate (Some fm) ImageHdr copy (Some b0) (Some s0)
    = (EFI_SUCCESS,
       Some (ImageHdr + hdr + (base - (0x100000000 - RomSize fm))),
       Some size).
Proof.
  intros Hentry Hrom Hbase Hsize Hend Himg Hhdr Hcap. unfold is_u32 in Hrom.
  rewrite (PlatformGetStage1AOffset_found _ _ _ _ _ _ _ _ _ _ Hentry).
  rewrite !wrap32_small by (unfold is_u32; lia).
  do 2 f_equal. f_equal. lia.
Qed.

(** X5: the status of [PlatformGetStage1AOffset], case by case.  It is
    [EFI_INVALID_PARAMETER] exactly when an output pointer is [NULL],
    whatever the flash map holds; with both pointers valid it is
    [EFI_SUCCESS] exactly when the flash map has the requested copy or,
    for a backup request, the primary copy, and [EFI_NOT_FOUND]
    otherwise.  A call that does not succeed leaves both output slots as
    they were. *)
Theorem PlatformGetStage1AOffset_status FlashMapPtr ImageHdr copy Base Size :
  let res := Locate FlashMapPtr ImageHdr copy Base Size in
  let found :=
    is_Some (flash_map_entry FlashMapPtr FLASH_MAP_SIG_STAGE1A copy)
    \/ (copy = true
        /\ is_Some (flash_map_entry FlashMapPtr FLASH_MAP_SIG_STAGE1A false))
  in
  (res.1.1 = EFI_INVALID_PARAMETER <-> Base = None \/ Size = None)
  /\ (res.1.1 = EFI_SUCCESS <-> is_Some Base /\ is_Some Size /\ found)
  /\ (res.1.1 = EFI_NOT_FOUND <-> is_Some Base /\ is_Some Size /\ ~ found)
  /\ (res.1.1 <> EFI_SUCCESS -> res.1.2 = Base /\ res.2 = Size).
Proof.
  intros res found; subst res found.
  destruct Base as [b0|], Size as [s0|];
    try (cbn; repeat split; intros; try congruence; try tauto;
         try (by left); try (by right);
         match goal with
         | H : _ /\ _ |- _ => destruct H as (Hs & Hs' & _);
                             (by destruct Hs || by destruct Hs')
         end).
  destruct FlashMapPtr as [fm|].
  2:{ rewrite PlatformGetStage1AOffset_no_flash_map by eauto.
      cbn. repeat split; intros; try congruence; try tauto; eauto.
      - destruct H as [?|?]; congruence.
      - destruct H as (_ & _ & [[? ?]|[_ [? ?]]]); congruence.
      - intros [[? ?]|[_ [? ?]]]; congruence. }
  destruct (entry (Some fm) copy) as [[base size]|] eqn:He.
  - rewrite (PlatformGetStage1AOffset_found _ _ _ _ _ _ _ _ _ _ He). cbn.
    repeat split; intros; try congruence; eauto.
    + destruct H as [?|?]; congruence.
    + destruct H as (_ & _ & Hnf). destruct Hnf. left; eauto.
  - destruct copy.
    + rewrite PlatformGetStage1AOffset_backup_missing by exact He.
      destruct (entry (Some fm) false) as [[base size]|] eqn:Hp.
      * rewrite (PlatformGetStage1AOffset_found _ _ _ _ _ _ _ _ _ _ Hp). cbn.
        repeat split; intros; try congruence; eauto.
        -- destruct H as [?|?]; congruence.
        -- destruct H as (_ & _ & Hnf). destruct Hnf. right; eauto.
      * rewrite PlatformGetStage1AOffset_primary_missing by exact Hp. cbn.
        repeat split; intros; try congruence; eauto.
        -- destruct H as [?|?]; congruence.
        -- destruct H as (_ & _ & [[? ?]|[_ [? ?]]]); congruence.
        -- intros [[? ?]|[_ [? ?]]]; congruence.
    + rewrite PlatformGetStage1AOffset_primary_missing by exact He. cbn.
      repeat split; intros; try congruence; eauto.
      * destruct H as [?|?]; congruence.
      * destruct H as (_ & _ & [[? ?]|[? _]]); congruence.
      * intros [[? ?]|[? _]]; congruence.
Qed.

(** X6: for an entry that lies in the ROM window below 4 GiB and a
    capsule that lies below 4 GiB, the address returned points into the
    capsule payload, the whole component fits in the payload, and the
    flash address of the component is recovered from it by undoing the
    two conversions. *)
Theorem PlatformGetStage1AOffset_inside_capsule
    fm ImageHdr copy b0 s0 base size :
  entry (Some fm) copy = Some (base, size) ->
  is_u32 (RomSize fm) ->
  0x100000000 - RomSize fm <= base ->
  0 < size ->
  base + size <= 0x100000000 ->
  0 <= ImageHdr -> 0 <= hdr ->
  ImageHdr + hdr + RomSize fm <= 2 ^ 32 ->
  exists b',
    Locate (Some fm) ImageHdr copy (Some b0) (Some s0)
      = (EFI_SUCCESS, Some b', Some size)
    /\ ImageHdr + hdr <= b'
    /\ b' + size <= ImageHdr + hdr + RomSize fm
    /\ b' - (ImageHdr + hdr) + (0x100000000 - RomSize fm) = base.
Proof.
  intros Hentry Hrom Hbase Hsize Hend Himg Hhdr Hcap.
  eexists. split.
  - by apply PlatformGetStage1AOffset_exact.
  - lia.
Qed.

(** X7: the locator and the plan agree.  If the component located lies,
    by its ROM offset, inside the destination of a region of the plan,
    then the address [PlatformGetStage1AOffset] returns lies inside the
    source of that region, for the same capsule and flash map. *)
Theorem PlatformGetStage1AOffset_inside_plan_region
    fm ts r nr ImageHdr FwPolicy copy b0 s0 base size plan i ri :
  is_u32 (RomSize fm) ->
  layout_fits (RomSize fm) ts r nr ->
  0 <= ImageHdr -> 0 <= hdr ->
  ImageHdr + hdr + RomSize fm <= 2 ^ 32 ->
  entry (Some fm) copy = Some (base, size) ->
  0 < size ->
  GetInfo (Some fm) (ts, r, nr) ImageHdr FwPolicy = (EFI_SUCCESS, Some plan) ->
  plan_regions plan !! i = Some ri ->
  ToUpdateAddress ri <= base - (0x100000000 - RomSize fm) ->
  base + size - (0x100000000 - RomSize fm) <= region_end ri ->
  exists b',
    Locate (Some fm) ImageHdr copy (Some b0) (Some s0)
      = (EFI_SUCCESS, Some b', Some size)
    /\ SourceAddress ri <= b'
    /\ b' + size <= SourceAddress ri + UpdateSize ri.
Proof.
  intros Hrom Hfit Himg Hhdr Hcap Hentry Hsize Hplan Hi Hlo Hhi.
  assert (Hcap' : ImageHdr + hdr + RomSize fm <= 2 ^ UINTN_bits arch)
    by (destruct arch; simpl; lia).
  assert (Himg32 : is_u32 ImageHdr)
    by (unfold is_u32, layout_fits in *; lia).
  destruct (GetFirmwareUpdateInfo_mirror arch hdr FW_UPDATE_SM_PART_A
              FW_UPDATE_SM_PART_B fm ts r nr ImageHdr FwPolicy
              Hrom Hfit Himg32 Hhdr Hcap') as (plan' & Hplan' & Hregions).
  rewrite Hplan in Hplan'. injection Hplan' as <-.
  destruct (Hregions i ri Hi) as (Hsrc & Hin_lo & Hin_hi).
  unfold region_end in *.
  eexists. split.
  - apply PlatformGetStage1AOffset_exact; try done; lia.
  - lia.
Qed.

End LocatorProperties.

(** ** The switch on a register that latches *)

(** What is written back is again a 32-bit value. *)
Lemma written_value_u32 Partition x :
  wrap32 (written_value Partition (wrap32 x))
    = written_value Partition (wrap32 x).
Proof.
  apply Z.bits_inj'. intros i Hi. unfold wrap32 at 1.
  destruct (Z.lt_ge_cases i 32) as [Hlow | Hhigh].
  - by rewrite Z.mod_pow2_bits_low by lia.
  - rewrite Z.mod_pow2_bits_high by lia. symmetry.
    assert (Hx : Z.testbit (wrap32 x) i = false)
      by (unfold wrap32; apply Z.mod_pow2_bits_high; lia).
    destruct Partition; cbn [written_value].
    + by rewrite Z.land_spec, Hx.
    + rewrite Z.lor_spec, Hx. change BIT0 with (2 ^ 0).
      by rewrite Z.pow2_bits_false by lia.
    + exact Hx.
Qed.

(** A named partition decides bit 0 whatever was written before. *)
Lemma written_value_last_wins p1 p2 x :
  p2 = PrimaryPartition \/ p2 = BackupPartition ->
  written_value p2 (written_value p1 (wrap32 x))
    = written_value p2 (wrap32 x).
Proof.
  intros Hp2.
  assert (Hkeep : forall i, 1 <= i ->
            Z.testbit (written_value p1 (wrap32 x)) i
              = Z.testbit (wrap32 x) i).
  { intros i Hi. destruct p1; cbn [written_value].
    - by apply land_not_BIT0_bits.
    - by apply lor_BIT0_bits.
    - reflexivity. }
  apply Z.bits_inj'. intros i Hi.
  destruct Hp2 as [-> | ->]; cbn [written_value];
    rewrite ?Z.land_spec, ?Z.lor_spec.
  - destruct (Z.eq_dec i 0) as [-> | Hne].
    + change (Z.testbit (not32 BIT0) 0) with false. by rewrite !andb_false_r.
    + by rewrite Hkeep by lia.
  - destruct (Z.eq_dec i 0) as [-> | Hne].
    + change (Z.testbit BIT0 0) with true. by rewrite !orb_true_r.
    + by rewrite Hkeep by lia.
Qed.

(** The register file of [latched_registers] latches at every address. *)
Lemma latched_registers_latch Address :
  latches_at (H := latched_registers) Address.
Proof.
  split; [reflexivity |]. intros v h. cbn. by rewrite lookup_insert_eq.
Qed.

Section SwitchProperties.
Context {HW : Type} `{MMIO_DEVICE HW}.
Variable PCH_PCR_ADDRESS : Z -> Z -> Z.
Variables PID_RTC_HOST R_RTC_PCR_BUC : Z.

Local Abbreviation Switch :=
  (SetBootPartition PCH_PCR_ADDRESS PID_RTC_HOST R_RTC_PCR_BUC).
Local Abbreviation TopSwapReg :=
  (wrap32 (PCH_PCR_ADDRESS PID_RTC_HOST R_RTC_PCR_BUC)).

(** One run on a register that latches: the device ends up holding the
    value written, and that is also what is read back. *)
Lemma SetBootPartition_run_latched Partition (m : MACHINE HW) :
  latches_at TopSwapReg ->
  let v := wrap32 (device_read32 TopSwapReg (hw m)).1 in
  let w := written_value Partition v in
  Switch Partition m =
  (EFI_SUCCESS,
   {| hw := device_write32 TopSwapReg w (hw m);
      trace := trace m ++ [MmioRead32_event TopSwapReg v;
                           MmioWrite32_event TopSwapReg w;
                           MmioRead32_event TopSwapReg w] |}).
Proof.
  intros [Hpure Hlatch]. cbv zeta. rewrite SetBootPartition_run. cbv zeta.
  rewrite !Hpure, Hlatch, written_value_u32. reflexivity.
Qed.

(** X8: on a register that latches the switch takes effect.  The value
    read back is the value written, the register holds it afterwards, its
    bit 0 is set after a switch to the backup partition and clear after a
    switch to the primary partition, and its other bits are those read at
    the start. *)
Theorem SetBootPartition_takes_effect Partition (m : MACHINE HW) :
  latches_at TopSwapReg ->
  exists v w m',
    Switch Partition m = (EFI_SUCCESS, m')
    /\ v = wrap32 (device_read32 TopSwapReg (hw m)).1
    /\ trace m' = trace m ++ [MmioRead32_event TopSwapReg v;
                              MmioWrite32_event TopSwapReg w;
                              MmioRead32_event TopSwapReg w]
    /\ wrap32 (device_read32 TopSwapReg (hw m')).1 = w
    /\ (Partition = BackupPartition -> Z.testbit w 0 = true)
    /\ (Partition = PrimaryPartition -> Z.testbit w 0 = false)
    /\ (forall i, 1 <= i -> Z.testbit w i = Z.testbit v i).
Proof.
  intros Hlatches. pose proof Hlatches as [Hpure Hlatch].
  eexists _, _, _. split; [by apply SetBootPartition_run_latched |].
  split; [reflexivity |]. split; [reflexivity |]. cbn [hw]. split.
  - by rewrite Hlatch, written_value_u32.
  - split; [| split].
    + intros ->. apply lor_BIT0_bits.
    + intros ->. apply land_not_BIT0_bits.
    + intros i Hi. destruct Partition; cbn [written_value].
      * by apply land_not_BIT0_bits.
      * by apply lor_BIT0_bits.
      * reflexivity.
Qed.

(** X9: two switches in a row on a register that latches.  The second
    call reads what the first one wrote.  If it names the same partition
    it writes the same value again; if it names the primary or the backup
    partition it writes what it would have written without the first
    call: the last call decides bit 0 and no call changes another bit. *)
Theorem SetBootPartition_twice p1 p2 (m : MACHINE HW) :
  latches_at TopSwapReg ->
  exists v w1 w2 m1 m2,
    Switch p1 m = (EFI_SUCCESS, m1)
    /\ Switch p2 m1 = (EFI_SUCCESS, m2)
    /\ v = wrap32 (device_read32 TopSwapReg (hw m)).1
    /\ trace m2 = trace m ++ [MmioRead32_event TopSwapReg v;
                              MmioWrite32_event TopSwapReg w1;
                              MmioRead32_event TopSwapReg w1;
                              MmioRead32_event TopSwapReg w1;
                              MmioWrite32_event TopSwapReg w2;
                              MmioRead32_event TopSwapReg w2]
    /\ (p2 = p1 -> w2 = w1)
    /\ (p2 = PrimaryPartition \/ p2 = BackupPartition ->
        w2 = written_value p2 v)
    /\ (forall i, 1 <= i -> Z.testbit w2 i = Z.testbit v i).
Proof.
  intros Hlatches. pose proof Hlatches as [Hpure Hlatch].
  set (v := wrap32 (device_read32 TopSwapReg (hw m)).1).
  set (w1 := written_value p1 v).
  assert (Hread : wrap32 (device_read32 TopSwapReg
                            (device_write32 TopSwapReg w1 (hw m))).1 = w1)
    by (rewrite Hlatch; apply written_value_u32).
  exists v, w1, (written_value p2 w1). eexists _, _.
  split; [by apply SetBootPartition_run_latched |].
  split; [rewrite SetBootPartition_run_latched by exact Hlatches;
          cbn [hw trace]; fold v; fold w1; rewrite Hread; reflexivity |].
  split; [reflexivity |]. split; [by rewrite <- app_assoc |].
  assert (Hkeep : forall p x i, 1 <= i ->
            Z.testbit (written_value p (wrap32 x)) i
              = Z.testbit (wrap32 x) i).
  { intros p x i Hi. destruct p; cbn [written_value].
    - by apply land_not_BIT0_bits.
    - by apply lor_BIT0_bits.
    - reflexivity. }
  split; [| split].
  - intros ->. subst w1 v. destruct p1; cbn [written_value]; try reflexivity.
    + by rewrite <- Z.land_assoc, Z.land_diag.
    + by rewrite <- Z.lor_assoc, Z.lor_diag.
  - intros Hp2. by apply written_value_last_wins.
  - intros i Hi. subst w1 v.
    rewrite <- (written_value_u32 p1).
    rewrite Hkeep by lia. rewrite written_value_u32. by apply Hkeep.
Qed.

End SwitchProperties.

(** X8 (witness): a latched register switched to the backup partition. *)
Lemma SetBootPartition_takes_effect_witness :
  exists v w m',
    SetBootPartition (H := latched_registers) sample_PCH_PCR_ADDRESS
      sample_PID_RTC_HOST sample_R_RTC_PCR_BUC BackupPartition latched_machine
    = (EFI_SUCCESS, m')
    /\ trace m' = [MmioRead32_event 0xFDC33414 v;
                   MmioWrite32_event 0xFDC33414 w;
                   MmioRead32_event 0xFDC33414 w]
    /\ Z.testbit w 0 = true.
Proof.
  destruct (SetBootPartition_takes_effect (H := latched_registers)
              sample_PCH_PCR_ADDRESS sample_PID_RTC_HOST sample_R_RTC_PCR_BUC
              BackupPartition latched_machine
              (latched_registers_latch _))
    as (v & w & m' & Hrun & _ & Htrace & _ & Hbackup & _).
  exists v, w, m'. split; [exact Hrun |]. split; [exact Htrace |].
  apply Hbackup. reflexivity.
Defined.

(** X9 (witness): backup, then primary, on a latched register. *)
Lemma SetBootPartition_twice_witness :
  exists v w1 w2 m1 m2,
    SetBootPartition (H := latched_registers) sample_PCH_PCR_ADDRESS
      sample_PID_RTC_HOST sample_R_RTC_PCR_BUC BackupPartition latched_machine
    = (EFI_SUCCESS, m1)
    /\ SetBootPartition (H := latched_registers) sample_PCH_PCR_ADDRESS
         sample_PID_RTC_HOST sample_R_RTC_PCR_BUC PrimaryPartition m1
       = (EFI_SUCCESS, m2)
    /\ trace m2 = [MmioRead32_event 0xFDC33414 v;
                   MmioWrite32_event 0xFDC33414 w1;
                   MmioRead32_event 0xFDC33414 w1;
                   MmioRead32_event 0xFDC33414 w1;
                   MmioWrite32_event 0xFDC33414 w2;
                   MmioRead32_event 0xFDC33414 w2]
    /\ w2 = written_value PrimaryPartition v.
Proof.
  destruct (SetBootPartition_twice (H := latched_registers)
              sample_PCH_PCR_ADDRESS sample_PID_RTC_HOST sample_R_RTC_PCR_BUC
              BackupPartition PrimaryPartition latched_machine
              (latched_registers_latch _))
    as (v & w1 & w2 & m1 & m2 & Hrun1 & Hrun2 & _ & Htrace & _ & Hlast & _).
  exists v, w1, w2, m1, m2.
  split; [exact Hrun1 |]. split; [exact Hrun2 |]. split; [exact Htrace |].
  apply Hlast. left; reflexivity.
Defined.

(** X5 (witness): a request for a component the flash map does not list
    fails and leaves the two slots alone. *)
Lemma PlatformGetStage1AOffset_status_witness :
  (PlatformGetStage1AOffset IA32 sample_hdr_size sample_SIG_STAGE1A
     (Some scenario_flash_map) 0x10000000 true (Some 7) (Some 9)).1.2 = Some 7
  /\ (PlatformGetStage1AOffset IA32 sample_hdr_size sample_SIG_STAGE1A
        (Some scenario_flash_map) 0x10000000 true (Some 7) (Some 9)).2
     = Some 9.
Proof.
  apply (PlatformGetStage1AOffset_status IA32 sample_hdr_size
           sample_SIG_STAGE1A (Some scenario_flash_map) 0x10000000 true
           (Some 7) (Some 9)).
  discriminate.
Defined.

(** X6 (witness): Stage 1A of the two-copy flash map, backup copy. *)
Lemma PlatformGetStage1AOffset_inside_capsule_witness :
  exists b',
    PlatformGetStage1AOffset X64 sample_hdr_size sample_SIG_STAGE1A
      (Some two_copy_flash_map) 0x10000000 true (Some 0) (Some 0)
    = (EFI_SUCCESS, Some b', Some 0x8000)
    /\ 0x10000000 + sample_hdr_size <= b'
    /\ b' + 0x8000
       <= 0x10000000 + sample_hdr_size + RomSize two_copy_flash_map
    /\ b' - (0x10000000 + sample_hdr_size)
       + (0x100000000 - RomSize two_copy_flash_map) = 0xFFFE0000.
Proof.
  apply (PlatformGetStage1AOffset_inside_capsule X64 sample_hdr_size
           sample_SIG_STAGE1A two_copy_flash_map 0x10000000 true 0 0
           0xFFFE0000 0x8000).
  - reflexivity.
  - cbv [is_u32 two_copy_flash_map RomSize]; lia.
  - cbv [two_copy_flash_map RomSize]; lia.
  - lia.
  - lia.
  - lia.
  - cbv [sample_hdr_size]; lia.
  - cbv [two_copy_flash_map RomSize sample_hdr_size]; lia.
Defined.

(** X7 (witness): the primary Stage 1A lies in the top-swap region of
    copy A. *)
Lemma PlatformGetStage1AOffset_inside_plan_region_witness :
  exists b',
    PlatformGetStage1AOffset IA32 sample_hdr_size sample_SIG_STAGE1A
      (Some single_copy_flash_map) 0x10000000 false (Some 0) (Some 0)
    = (EFI_SUCCESS, Some b', Some 0x8000)
    /\ 0x10FF0020 <= b'
    /\ b' + 0x8000 <= 0x10FF0020 + 0x10000.
Proof.
  apply (PlatformGetStage1AOffset_inside_plan_region IA32 sample_hdr_size
           sample_SM_PART_A sample_SM_PART_B sample_SIG_STAGE1A
           single_copy_flash_map 0x10000 0x100000 0x200000 0x10000000
           (policy false sample_SM_PART_A) false 0 0 0xFFFF0000 0x8000
           {| RegionCount := 3;
              FwRegion :=
                [ {| ToUpdateAddress := 0xFF0000; UpdateSize := 0x10000;
                     SourceAddress := 0x10FF0020 |};
                  {| ToUpdateAddress := 0xEE0000; UpdateSize := 0x100000;
                     SourceAddress := 0x10EE0020 |};
                  {| ToUpdateAddress := 0xBE0000; UpdateSize := 0x200000;
                     SourceAddress := 0x10BE0020 |} ] |}
           0%nat
           {| ToUpdateAddress := 0xFF0000; UpdateSize := 0x10000;
              SourceAddress := 0x10FF0020 |}).
  - cbv [is_u32 single_copy_flash_map RomSize]; lia.
  - cbv [layout_fits single_copy_flash_map RomSize]; lia.
  - lia.
  - cbv [sample_hdr_size]; lia.
  - cbv [single_copy_flash_map RomSize sample_hdr_size]; lia.
  - reflexivity.
  - lia.
  - reflexivity.
  - reflexivity.
  - cbv [single_copy_flash_map RomSize ToUpdateAddress]; lia.
  - cbv [single_copy_flash_map RomSize region_end ToUpdateAddress UpdateSize];
      lia.
Defined.

(** ** The end-of-update hook *)

Section HookProperties.
Context {HW : Type} `{PORT_DEVICE HW}.
Variables CMOS_ADDREG CMOS_DATAREG : Z.

Local Abbreviation EndUpdate := (EndFirmwareUpdate CMOS_ADDREG CMOS_DATAREG).

(** One run on any device: select byte 0x40, read it, and clear it only
    when it is not zero. *)
Lemma EndFirmwareUpdate_run (m : PORT_MACHINE HW) :
  let h1 := port_write8 CMOS_ADDREG FWU_BOOT_MODE_OFFSET (ports m) in
  let rd0 := port_read8 CMOS_DATAREG h1 in
  let v := wrap8 rd0.1 in
  let h3 := port_write8 CMOS_DATAREG 0
              (port_write8 CMOS_ADDREG FWU_BOOT_MODE_OFFSET rd0.2) in
  let rd1 := port_read8 CMOS_DATAREG h3 in
  EndUpdate m =
  (EFI_SUCCESS,
   if v =? 0
   then {| ports := rd0.2;
           port_trace :=
             port_trace m ++ [IoWrite8_event CMOS_ADDREG FWU_BOOT_MODE_OFFSET;
                              IoRead8_event CMOS_DATAREG v] |}
   else {| ports := rd1.2;
           port_trace :=
             port_trace m ++ [IoWrite8_event CMOS_ADDREG FWU_BOOT_MODE_OFFSET;
                              IoRead8_event CMOS_DATAREG v;
                              IoWrite8_event CMOS_ADDREG FWU_BOOT_MODE_OFFSET;
                              IoWrite8_event CMOS_DATAREG 0;
                              IoRead8_event CMOS_DATAREG (wrap8 rd1.1)] |}).
Proof.
  unfold EndFirmwareUpdate, pio_bind, pio_ret, IoRead8, IoWrite8.
  cbn [ports port_trace].
  destruct (port_read8 CMOS_DATAREG
              (port_write8 CMOS_ADDREG FWU_BOOT_MODE_OFFSET (ports m)))
    as [v0 h2]. cbn [fst snd ports port_trace].
  destruct (wrap8 v0 =? 0); cbn [negb ports port_trace].
  - by rewrite <- !app_assoc.
  - destruct (port_read8 CMOS_DATAREG _) as [v1 h4]. cbn [fst snd].
    by rewrite <- !app_assoc.
Qed.


End HookProperties.

(** A run of the hook on the CMOS RAM model. *)
Lemma EndFirmwareUpdate_cmos_run addreg datareg (c : CMOS) t :
  addreg <> datareg ->
  EndFirmwareUpdate (H := cmos_device addreg datareg) addreg datareg
    {| ports := c; port_trace := t |}
  = (EFI_SUCCESS,
     if cmos_byte c 0x40 =? 0
     then {| ports := {| cmos_index := 0x40; cmos_ram := cmos_ram c |};
             port_trace := t ++ [IoWrite8_event addreg 0x40;
                                 IoRead8_event datareg 0] |}
     else {| ports := {| cmos_index := 0x40;
                         cmos_ram := <[0x40 := 0]> (cmos_ram c) |};
             port_trace := t ++ [IoWrite8_event addreg 0x40;
                                 IoRead8_event datareg (cmos_byte c 0x40);
                                 IoWrite8_event addreg 0x40;
                                 IoWrite8_event datareg 0;
                                 IoRead8_event datareg 0] |}).
Proof.
  intros Hne. rewrite EndFirmwareUpdate_run.
  assert (Hda : (datareg =? addreg) = false) by (apply Z.eqb_neq; congruence).
  cbn [ports port_trace port_read8 port_write8 cmos_device].
  rewrite !Z.eqb_refl, ?Hda.
  cbn [cmos_index cmos_ram fst snd].
  rewrite ?Z.eqb_refl, ?Hda. cbn [cmos_index cmos_ram fst snd].
  unfold cmos_byte. change FWU_BOOT_MODE_OFFSET with 0x40.
  destruct (wrap8 (default 0 (cmos_ram c !! 64)) =? 0) eqn:Hflag.
  - apply Z.eqb_eq in Hflag. by rewrite Hflag.
  - by rewrite lookup_insert_eq.
Qed.

(** X11: on a CMOS RAM whose data port reads and writes the byte
    selected through the index port, the hook leaves byte 0x40 reading
    zero and every other byte as it was; a second run finds the byte
    clear and writes nothing. *)
Theorem EndFirmwareUpdate_cmos_cleared addreg datareg (c : CMOS) t :
  addreg <> datareg ->
  exists m' m'',
    EndFirmwareUpdate (H := cmos_device addreg datareg) addreg datareg
      {| ports := c; port_trace := t |} = (EFI_SUCCESS, m')
    /\ cmos_byte (ports m') 0x40 = 0
    /\ (forall Offset, Offset <> 0x40 ->
          cmos_ram (ports m') !! Offset = cmos_ram c !! Offset)
    /\ EndFirmwareUpdate (H := cmos_device addreg datareg) addreg datareg m'
       = (EFI_SUCCESS, m'')
    /\ cmos_ram (ports m'') = cmos_ram (ports m')
    /\ port_trace m'' = port_trace m' ++ [IoWrite8_event addreg 0x40;
                                          IoRead8_event datareg 0].
Proof.
  intros Hne.
  rewrite (EndFirmwareUpdate_cmos_run _ _ _ _ Hne).
  destruct (cmos_byte c 0x40 =? 0) eqn:Hflag.
  - apply Z.eqb_eq in Hflag. eexists _, _.
    split; [reflexivity |]. cbn [ports cmos_ram].
    split; [exact Hflag |]. split; [done |].
    rewrite (EndFirmwareUpdate_cmos_run _ _ _ _ Hne).
    replace (cmos_byte _ 0x40) with 0 by (symmetry; exact Hflag).
    cbn [Z.eqb]. done.
  - eexists _, _.
    split; [reflexivity |]. cbn [ports cmos_ram].
    assert (Hclear : cmos_byte {| cmos_index := 0x40;
                                  cmos_ram := <[0x40 := 0]> (cmos_ram c) |}
                               0x40 = 0)
      by (unfold cmos_byte; cbn [cmos_ram]; by rewrite lookup_insert_eq).
    split; [exact Hclear |].
    split; [intros Offset Ho; by rewrite lookup_insert_ne |].
    rewrite (EndFirmwareUpdate_cmos_run _ _ _ _ Hne), Hclear.
    cbn [Z.eqb]. done.
Qed.


(** X11 (witness): the same CMOS RAM. *)
Lemma EndFirmwareUpdate_cmos_cleared_witness :
  exists m' m'',
    EndFirmwareUpdate (H := cmos_device 0x70 0x71) 0x70 0x71
      {| ports := {| cmos_index := 0;
                     cmos_ram := {[ 0x40 := FWU_BOOT_MODE_VALUE ]} |};
         port_trace := [] |} = (EFI_SUCCESS, m')
    /\ cmos_byte (ports m') 0x40 = 0
    /\ EndFirmwareUpdate (H := cmos_device 0x70 0x71) 0x70 0x71 m'
       = (EFI_SUCCESS, m'')
    /\ cmos_ram (ports m'') = cmos_ram (ports m').
Proof.
  destruct (EndFirmwareUpdate_cmos_cleared 0x70 0x71
              {| cmos_index := 0;
                 cmos_ram := {[ 0x40 := FWU_BOOT_MODE_VALUE ]} |} [])
    as (m' & m'' & Hrun & Hclear & _ & Hrun2 & Hsame & _); [lia |].
  exists m', m''. repeat split; assumption.
Defined.

(** ** Boot-media access *)


Section BootMediaProperties.
Context {F R : Type}.
Variable GetServiceBySignature : Z -> option (SPI_FLASH_SERVICE F R).
Variable SPI_FLASH_SERVICE_SIGNATURE : Z.
Variable FlashRegionBios : Z.

Local Abbreviation Init :=
  (InitializeBootMedia GetServiceBySignature SPI_FLASH_SERVICE_SIGNATURE).


(** X13: [InitializeBootMedia] and the accessors.  When the SPI service
    is not registered the handle is [NULL] afterwards, also when it was
    set before, the flash is not touched, and a later read has no service
    to call.  When the service is registered, it is initialised once, and
    a later read is the service's read of the BIOS region at the low 32
    bits of the address, on the flash as initialisation left it, with the
    service's own status. *)
Theorem InitializeBootMedia_then_read Address ByteCount (st : BOOT_MEDIA F R) :
  (GetServiceBySignature SPI_FLASH_SERVICE_SIGNATURE = None ->
   Init st = {| mFwuSpiService := None; flash := flash st |}
   /\ BootMediaRead FlashRegionBios Address ByteCount (Init st) = None)
  /\ (forall Service,
        GetServiceBySignature SPI_FLASH_SERVICE_SIGNATURE = Some Service ->
        mFwuSpiService (Init st) = Some Service
        /\ flash (Init st) = (SpiInit Service (flash st)).2
        /\ exists Status Buffer f,
             SpiRead Service FlashRegionBios (wrap32 Address) ByteCount
                     (SpiInit Service (flash st)).2 = (Status, Buffer, f)
             /\ BootMediaRead FlashRegionBios Address ByteCount (Init st)
                = Some (Status, Buffer,
                        {| mFwuSpiService := Some Service; flash := f |})).
Proof.
  unfold InitializeBootMedia, BootMediaRead. cbn [mFwuSpiService flash].
  split.
  - intros ->. by cbn.
  - intros Service ->. cbn [mFwuSpiService flash mbind option_bind].
    split; [reflexivity |]. split; [reflexivity |].
    destruct (SpiRead Service _ _ _ _) as [[Status Buffer] f].
    by eexists _, _, _.
Qed.

End BootMediaProperties.

(** X13 (witness): the recording service, registered under signature 1
    and called with an address above 4 GiB. *)
Lemma InitializeBootMedia_then_read_witness :
  BootMediaRead 2 0x100001000 4
    (InitializeBootMedia (fun _ => Some recording_flash) 1
       {| mFwuSpiService := None; flash := [] |})
  = Some (0, [0xFF; 0xFF; 0xFF; 0xFF],
          {| mFwuSpiService := Some recording_flash;
             flash := [(0, 0, 0, 0); (1, 2, 0x1000, 4)] |})
  /\ BootMediaRead 2 0x100001000 4
       (InitializeBootMedia (fun _ => @None _) 1
          {| mFwuSpiService := Some recording_flash; flash := [] |})
     = None.
Proof.
  split.
  - destruct (InitializeBootMedia_then_read
                (fun _ => Some recording_flash) 1 2 0x100001000 4
                {| mFwuSpiService := None; flash := [] |})
      as (_ & Hfound).
    destruct (Hfound recording_flash eq_refl)
      as (_ & _ & Status & Buffer & f & Hread & Hrun).
    rewrite Hrun. injection Hread as <- <- <-. reflexivity.
  - apply (InitializeBootMedia_then_read
             (fun _ => @None (SPI_FLASH_SERVICE _ Z)) 1 2 0x100001000 4
             {| mFwuSpiService := Some recording_flash; flash := [] |}).
    reflexivity.
Defined.

(** X4 (witness): a 32-bit build, phase [PART_A]; all three sources. *)
Lemma GetFirmwareUpdateInfo_sources_uniform_witness :
  exists plan,
    GetFirmwareUpdateInfo IA32 sample_hdr_size sample_SM_PART_A
      sample_SM_PART_B (Some scenario_flash_map)
      (0x10000, 0x100000, 0x200000) 0x10000000
      (policy false sample_SM_PART_A) = (EFI_SUCCESS, Some plan)
    /\ forall i ri, plan_regions plan !! i = Some ri ->
         SourceAddress ri
           = wrapN IA32 (0x10000000 + sample_hdr_size + ToUpdateAddress ri).
Proof.
  destruct (GetFirmwareUpdateInfo_sources_uniform IA32 sample_hdr_size
              sample_SM_PART_A sample_SM_PART_B scenario_flash_map
              0x10000 0x100000 0x200000 0x10000000
              (policy false sample_SM_PART_A)) as (plan & Hplan & Hsrc).
  exists plan. split; [exact Hplan |].
  intros i ri Hi. apply (Hsrc i ri Hi). right. cbv [is_u32]; lia.
Defined.
